(** * x4build: watch, rebuild, notify and serve

    A shallow embedding of [x4build.mjs]: the build trigger and its counter,
    the live-reload registry and broadcast, the watcher's ignore predicate and
    event handler, and the request handler of the static file server.

    The program is a single-threaded Node process.  Every callback runs to
    completion, or to its first [await], before the next one starts; the
    embedding therefore is a deterministic step function over the callbacks
    the event loop can deliver. *)

From Stdlib Require Import String Ascii List Bool ZArith Lia PeanoNat.
Import ListNotations.
Open Scope string_scope.

(** ** JavaScript strings *)

Module Js.

(** [s.startsWith(p)] *)
Definition startsWith (s p : string) : bool := String.prefix p s.

(** [s.substring(n)]: the characters from index [n] on. *)
Fixpoint substring (n : nat) (s : string) : string :=
  match n, s with
  | O, _ => s
  | S n', String _ r => substring n' r
  | S _, EmptyString => EmptyString
  end.

(** [s.split(c)] for a one-character separator. *)
Fixpoint split (c : ascii) (s : string) : list string :=
  match s with
  | EmptyString => [EmptyString]
  | String a r =>
      if Ascii.eqb a c then EmptyString :: split c r
      else match split c r with
           | w :: ws => String a w :: ws
           | [] => [String a EmptyString]
           end
  end.

(** [xs.join(sep)] *)
Fixpoint join (sep : string) (xs : list string) : string :=
  match xs with
  | [] => EmptyString
  | [x] => x
  | x :: r => x ++ sep ++ join sep r
  end.

(** The last character of a string, if any. *)
Fixpoint last_char (s : string) : option ascii :=
  match s with
  | EmptyString => None
  | String a EmptyString => Some a
  | String _ r => last_char r
  end.

Definition first_char (s : string) : option ascii :=
  match s with
  | EmptyString => None
  | String a _ => Some a
  end.

Definition is_char (c : ascii) (o : option ascii) : bool :=
  match o with
  | Some a => Ascii.eqb a c
  | None => false
  end.

End Js.

(** ** [node:path], POSIX flavour

    The functions of the platform library that the program calls.  They follow
    the library's algorithm on path segments: [normalizeString] walks the
    segments between separators, skips empty and ["."] segments, and lets
    [".."] remove the segment before it when there is one to remove. *)

Module Path.

Definition slash : ascii := "/"%char.

(** One segment of [normalizeString]; [res] is the result so far, last
    segment first. *)
Definition norm_step (allowAboveRoot : bool) (res : list string)
                     (seg : string) : list string :=
  if (seg =? "") || (seg =? ".") then res
  else if seg =? ".." then
    match res with
    | top :: rest =>
        if top =? ".." then (if allowAboveRoot then ".." :: res else res)
        else rest
    | [] => if allowAboveRoot then [".."] else []
    end
  else seg :: res.

Definition normalizeSegments (allowAboveRoot : bool)
                             (segs : list string) : list string :=
  rev (fold_left (norm_step allowAboveRoot) segs []).

(** [path.isAbsolute(p)] *)
Definition isAbsolute (p : string) : bool :=
  Js.is_char slash (Js.first_char p).

(** [path.normalize(p)] *)
Definition normalize (p : string) : string :=
  if p =? "" then "."
  else
    let isAbsolute := isAbsolute p in
    let trailingSeparator := Js.is_char slash (Js.last_char p) in
    let body :=
      Js.join "/" (normalizeSegments (negb isAbsolute) (Js.split slash p)) in
    if body =? "" then
      (if isAbsolute then "/" else if trailingSeparator then "./" else ".")
    else
      let body' := if trailingSeparator then body ++ "/" else body in
      if isAbsolute then "/" ++ body' else body'.

(** [path.join(...args)]: the non-empty arguments, joined by the separator
    and normalized. *)
Definition join (args : list string) : string :=
  match filter (fun a => negb (a =? "")) args with
  | [] => "."
  | parts => normalize (Js.join "/" parts)
  end.

(** The last segment of a path, trailing separators ignored:
    [path.basename(p)]. *)
Definition basename (p : string) : string :=
  last (filter (fun a => negb (a =? "")) (Js.split slash p)) "".

(** The suffix of [b] that starts at its last dot; [None] without a dot. *)
Fixpoint from_last_dot (b : string) : option string :=
  match b with
  | EmptyString => None
  | String a r =>
      match from_last_dot r with
      | Some e => Some e
      | None => if Ascii.eqb a "."%char then Some b else None
      end
  end.

(** [path.extname(p)]: from the last dot of the last segment to its end;
    empty when there is no dot, when the only dot is the segment's first
    character, or when the segment is [".."]. *)
Definition extname (p : string) : string :=
  let b := basename p in
  if b =? ".." then ""
  else match from_last_dot b with
       | None => ""
       | Some e => if e =? b then "" else e
       end.

(** [path.parse(p).ext] is computed as [path.extname(p)]. *)
Definition parse_ext (p : string) : string := extname p.

End Path.

(** ** Settings *)

Record copy_rule := { from : string; to : string }.

Record settings_t := {
  entryPoints : list string;
  outdir : string;
  copy : list copy_rule
}.

Definition def_settings : settings_t :=
  {| entryPoints := ["src/main.ts"]; outdir := "./bin"; copy := [] |}.

(** The [x4build] entry of [package.json]: each key may be absent. *)
Record pkg_x4build := {
  pkg_entryPoints : option (list string);
  pkg_outdir : option string;
  pkg_copy : option (list copy_rule)
}.

Definition or_default {A : Type} (o : option A) (d : A) : A :=
  match o with Some a => a | None => d end.

(** [{ ...def_settings, ...pkg_settings.x4build }] *)
Definition merge_settings (pkg : pkg_x4build) : settings_t :=
  {| entryPoints := or_default (pkg_entryPoints pkg) (entryPoints def_settings);
     outdir := or_default (pkg_outdir pkg) (outdir def_settings);
     copy := or_default (pkg_copy pkg) (copy def_settings) |}.

(** [process.argv.find(a => a.startsWith("--outdir="))], then
    [substring(9)]. *)
Definition outDir_arg (argv : list string) : option string :=
  option_map (Js.substring 9)
             (find (fun a => Js.startsWith a "--outdir=") argv).

(** [if (outDir) settings.outdir = outDir]; the empty string is falsy. *)
Definition resolve_settings (pkg : pkg_x4build) (argv : list string)
  : settings_t :=
  let s := merge_settings pkg in
  match outDir_arg argv with
  | Some d =>
      if d =? "" then s
      else {| entryPoints := entryPoints s; outdir := d; copy := copy s |}
  | None => s
  end.

(** ** The process

    [cPath] is [process.cwd()], [selfPath] the path of the running script.
    [ws_send h] tells whether [ws.send] on the handle [h] returns normally
    ([true]) or throws ([false]); the socket library decides that. *)

Definition handle := nat.

Record env := {
  cPath : string;
  selfPath : string;
  settings : settings_t;
  ws_send : handle -> bool
}.

(** What the process does to its collaborators, in order. *)
Inductive action :=
| BundlerStart (b : nat)                (* [esbuild.build(options)] is called *)
| BundlerEnd (b : nat) (ok : bool)      (* its promise settles *)
| Send (ws : handle) (msg : string)     (* [ws.send(msg)] is called *)
| UnhandledRejection                    (* an async handler threw *)
| UncaughtException                     (* an emitter threw: no listener
                                           for an ['error'] event *)
| Exit (code : Z).                      (* [process.exit(code)] *)

(** What the caller of [build()] does once the awaited build returns. *)
Inductive cont :=
| KReturn                      (* nothing: [build()] not awaited, or [return] *)
| KBroadcast (msg : string).   (* [sendClientMessage(msg)] *)

Record state := {
  buildcnt : Z;
  fresh : nat;                       (* names the next bundler invocation *)
  running : list (nat * cont);       (* invocations in flight, each with the
                                        caller suspended on it *)
  clients : list handle;             (* the [clients] array *)
  closed : list handle;              (* sockets that have disconnected *)
  trace : list action;
  alive : bool
}.

Definition initial : state :=
  {| buildcnt := 1; fresh := 0; running := []; clients := []; closed := [];
     trace := []; alive := true |}.

(** [buildcnt++] on a JavaScript number that holds an integer: exact below
    2^53, where 2^53 + 1 rounds back to 2^53.  The counter starts at 1 and
    only this function changes it, so it takes no value outside 1 .. 2^53. *)
Definition js_incr (n : Z) : Z := if (n <? 2 ^ 53)%Z then (n + 1)%Z else n.

(** A call of [build()], up to its [await]: the counter is bumped while the
    banner is logged, the options are assembled and the bundler is invoked.
    The caller continues with [k] when the invocation settles; the [catch]
    only logs. *)
Definition build (k : cont) (s : state) : state :=
  {| buildcnt := js_incr (buildcnt s);
     fresh := S (fresh s);
     running := running s ++ [(fresh s, k)];
     clients := clients s;
     closed := closed s;
     trace := trace s ++ [BundlerStart (fresh s)];
     alive := alive s |}.

Definition with_trace (s : state) (acts : list action) : state :=
  {| buildcnt := buildcnt s; fresh := fresh s; running := running s;
     clients := clients s; closed := closed s;
     trace := trace s ++ acts; alive := alive s |}.

(** [clients.forEach(ws => { ws.send(msg); })]: the calls made, and whether
    the loop ran to its end.  An exception leaves [forEach] at once. *)
Fixpoint forEach_send (send : handle -> bool) (msg : string)
                      (cl : list handle) : list action * bool :=
  match cl with
  | [] => ([], true)
  | ws :: rest =>
      if send ws then
        let (acts, ok) := forEach_send send msg rest in (Send ws msg :: acts, ok)
      else ([Send ws msg], false)
  end.

(** What [sendClientMessage(msg)] does when an async handler calls it: an
    exception rejects the handler's promise, which nobody awaits. *)
Definition broadcast (send : handle -> bool) (msg : string)
                     (cl : list handle) : list action :=
  let (acts, ok) := forEach_send send msg cl in
  (acts ++ if ok then [] else [UnhandledRejection])%list.

(** The program calls [fs.cpSync], which exists from Node 16.7 on; there an
    unhandled rejection ends the process. *)
Definition sendClientMessage (E : env) (msg : string) (s : state) : state :=
  {| buildcnt := buildcnt s; fresh := fresh s; running := running s;
     clients := clients s; closed := closed s;
     trace := trace s ++ broadcast (ws_send E) msg (clients s);
     alive := alive s && snd (forEach_send (ws_send E) msg (clients s)) |}.

(** Bundler invocations are named apart: the ones in flight were all named
    before the next name to be given out. *)
Definition named_apart (s : state) : Prop :=
  Forall (fun r => fst r < fresh s) (running s).

(** Is this the entry of invocation [b]? *)
Definition named (b : nat) (r : nat * cont) : bool := Nat.eqb (fst r) b.

(** The caller suspended on invocation [b], if [b] is in flight. *)
Definition suspended_on (b : nat) (s : state) : option cont :=
  option_map snd (find (named b) (running s)).

(** [process.exit(0)] *)
Definition process_exit (code : Z) (s : state) : state :=
  {| buildcnt := buildcnt s; fresh := fresh s; running := running s;
     clients := clients s; closed := closed s;
     trace := trace s ++ [Exit code]; alive := false |}.

(** ** The watcher *)

(** The [ignore] option handed to the watcher. *)
Definition ignore (cPath targetPath : string) : bool :=
  let targetPath :=
    if Js.startsWith targetPath cPath then
      Path.normalize
        (Path.join ["."; Js.substring (String.length cPath) targetPath])
    else targetPath in
  Js.startsWith targetPath "bin" || Js.startsWith targetPath "node_modules".

(** [settings.copy?.some(desc => ...)] on the path relative to the working
    directory. *)
Definition copy_some (st : settings_t) (pth : string) : bool :=
  existsb (fun desc =>
             let from := Path.normalize (from desc) in
             (pth =? from) || Js.startsWith pth from)
          (copy st).

(** The first [if] of the handler: is the event one of the copy paths? *)
Definition is_copy_path (E : env) (event targetPath : string) : bool :=
  ((event =? "change") || (event =? "add"))
  && Js.startsWith targetPath (cPath E)
  && copy_some (settings E)
       (Path.normalize
          ("." ++ Js.substring (String.length (cPath E)) targetPath)).

(** The [switch] on the extension. *)
Definition on_extension (E : env) (targetPath : string) (s : state) : state :=
  let ext := Path.extname targetPath in
  if (ext =? ".svg") || (ext =? ".css") || (ext =? ".scss") then
    build (KBroadcast "reload-css") s
  else if (ext =? ".html") || (ext =? ".ts") || (ext =? ".js")
          || (ext =? ".jsx") || (ext =? ".tsx") then
    build (KBroadcast "reload-js") s
  else if ext =? ".json" then
    (if Path.basename targetPath =? "package.json" then build KReturn s else s)
  else s.

(** [watcher.on('all', async (event, targetPath) => ...)], up to its first
    [await]. *)
Definition on_all (E : env) (event targetPath : string) (s : state) : state :=
  if is_copy_path E event targetPath then build KReturn s
  else if event =? "change" then
    if targetPath =? selfPath E then process_exit 0 s
    else on_extension E targetPath s
  else s.

(** ** The event loop *)

Inductive input :=
| Startup                                   (* the top-level [build()] *)
| Watch (event targetPath : string)         (* the watcher's ['all'] event *)
| Settled (b : nat) (ok : bool)             (* a bundler promise settles *)
| Connection (ws : handle)                  (* ['connection'] *)
| Close (ws : handle)                       (* a client goes away: ['close']
                                               on its socket *)
| SocketError (ws : handle).                (* ['error'] on a socket *)

Definition resume (E : env) (k : cont) (s : state) : state :=
  match k with
  | KReturn => s
  | KBroadcast msg => sendClientMessage E msg s
  end.

Definition settle (E : env) (b : nat) (ok : bool) (s : state) : state :=
  match find (named b) (running s) with
  | None => s
  | Some (_, k) =>
      resume E k
        {| buildcnt := buildcnt s; fresh := fresh s;
           running := filter (fun r => negb (named b r)) (running s);
           clients := clients s; closed := closed s;
           trace := trace s ++ [BundlerEnd b ok]; alive := alive s |}
  end.

(** [clients.push(ws)]; the listeners registered next to it are set on the
    server object and have empty or logging bodies. *)
Definition on_connection (ws : handle) (s : state) : state :=
  {| buildcnt := buildcnt s; fresh := fresh s; running := running s;
     clients := clients s ++ [ws]; closed := closed s;
     trace := trace s; alive := alive s |}.

(** No listener is attached to a socket: when it closes, only the socket's
    own state changes. *)
Definition on_close (ws : handle) (s : state) : state :=
  {| buildcnt := buildcnt s; fresh := fresh s; running := running s;
     clients := clients s; closed := closed s ++ [ws];
     trace := trace s; alive := alive s |}.

(** The ['error'] and ['message'] listeners are set on [wsServer], not on
    [ws]: an ['error'] event of a socket finds no listener, the emitter
    throws, and the exception ends the process. *)
Definition on_socket_error (ws : handle) (s : state) : state :=
  {| buildcnt := buildcnt s; fresh := fresh s; running := running s;
     clients := clients s; closed := closed s;
     trace := trace s ++ [UncaughtException]; alive := false |}.

Definition step (E : env) (s : state) (i : input) : state :=
  if alive s then
    match i with
    | Startup => build KReturn s
    | Watch event targetPath => on_all E event targetPath s
    | Settled b ok => settle E b ok s
    | Connection ws => on_connection ws s
    | Close ws => on_close ws s
    | SocketError ws => on_socket_error ws s
    end
  else s.

Definition run (E : env) (s : state) (ins : list input) : state :=
  fold_left (step E) ins s.

(** The bundler invocations in flight. *)
Definition in_flight (s : state) : nat := List.length (running s).

(** Does the handler of this input call [build()]? *)
Definition triggers (E : env) (i : input) : bool :=
  match i with
  | Startup => true
  | Watch event targetPath =>
      is_copy_path E event targetPath
      || ((event =? "change") && negb (targetPath =? selfPath E)
          && let ext := Path.extname targetPath in
             (ext =? ".svg") || (ext =? ".css") || (ext =? ".scss")
             || (ext =? ".html") || (ext =? ".ts") || (ext =? ".js")
             || (ext =? ".jsx") || (ext =? ".tsx")
             || ((ext =? ".json")
                 && (Path.basename targetPath =? "package.json")))
  | _ => false
  end.

(** ** The static file server *)

(** The file system as the handler sees it. *)
Inductive read_result :=
| ReadError (err : string)
| ReadData (data : string).

Record fs_api := {
  existsSync : string -> bool;
  isDirectory : string -> bool;      (* [fs.statSync(p).isDirectory()] *)
  readFile : string -> read_result
}.

Record response := {
  statusCode : Z;
  headers : list (string * string);
  body : string
}.

Definition mimeType : list (string * string) :=
  [ (".ico", "image/x-icon");
    (".html", "text/html");
    (".js", "text/javascript");
    (".json", "application/json");
    (".css", "text/css");
    (".png", "image/png");
    (".jpg", "image/jpeg");
    (".wav", "audio/wav");
    (".mp3", "audio/mpeg");
    (".svg", "image/svg+xml");
    (".pdf", "application/pdf");
    (".zip", "application/zip");
    (".doc", "application/msword");
    (".eot", "application/vnd.ms-fontobject");
    (".ttf", "application/x-font-ttf") ].

(** [table[key]] on an object literal whose keys all start with a dot. *)
Fixpoint lookup (key : string) (table : list (string * string))
  : option string :=
  match table with
  | [] => None
  | (k, v) :: rest => if key =? k then Some v else lookup key rest
  end.

(** [mimeType[ext] || 'text/plain']: an absent or empty entry is falsy. *)
Definition content_type (ext : string) : string :=
  match lookup ext mimeType with
  | Some v => if v =? "" then "text/plain" else v
  | None => "text/plain"
  end.

(** [.replace(/^(\.\.[\/\\])+/, '')]: drops every leading [../] or [..\]. *)
Fixpoint strip_parents (s : string) : string :=
  match s with
  | String a (String b (String c r)) =>
      if Ascii.eqb a "."%char && Ascii.eqb b "."%char
         && (Ascii.eqb c "/"%char || Ascii.eqb c "\"%char)
      then strip_parents r else s
  | _ => s
  end.

Definition sanitizePath (pathname : string) : string :=
  strip_parents (Path.normalize pathname).

(** The path looked up for a request: [path.join(settings.outdir,
    sanitizePath)]. *)
Definition resolved (st : settings_t) (pathname : string) : string :=
  Path.join [outdir st; sanitizePath pathname].

(** The file read once the resolved path exists: a directory stands for its
    [index.html]. *)
Definition served (fs : fs_api) (p : string) : string :=
  if isDirectory fs p then Path.join [p; "index.html"] else p.

(** [server.on('request', (req, res) => ...)]; [pathname] is
    [url.parse(req.url).pathname].  The status of a fresh response is 200. *)
Definition on_request (st : settings_t) (fs : fs_api) (pathname : string)
  : response :=
  let p := resolved st pathname in
  if existsSync fs p then
    let p := served fs p in
    match readFile fs p with
    | ReadError err =>
        {| statusCode := 500; headers := [];
           body := "Error getting the file: " ++ err ++ "." |}
    | ReadData data =>
        {| statusCode := 200;
           headers := [("Content-type", content_type (Path.parse_ext p))];
           body := data |}
    end
  else
    {| statusCode := 404; headers := [];
       body := "File " ++ p ++ " not found!" |}.

(** The segments of a path in normalized form. *)
Definition segments (p : string) : list string :=
  Path.normalizeSegments (negb (Path.isAbsolute p))
                         (Js.split Path.slash p).

(** [ys] is [xs] followed by segments that do not climb. *)
Fixpoint below (xs ys : list string) : bool :=
  match xs, ys with
  | [], rest => forallb (fun w => negb (w =? "..")) rest
  | x :: xs', y :: ys' => (x =? y) && below xs' ys'
  | _ :: _, [] => false
  end.


(** Is [p] the directory [dir] or a path below it? *)
Definition inside (dir p : string) : bool :=
  Bool.eqb (Path.isAbsolute dir) (Path.isAbsolute p)
  && below (segments dir) (segments p).

(** A string without a separator. *)
Fixpoint free (w : string) : bool :=
  match w with
  | EmptyString => true
  | String a r => negb (Ascii.eqb a Path.slash) && free r
  end.

(** A segment that [normalizeString] keeps as it is. *)
Definition plain (w : string) : bool :=
  negb ((w =? "") || (w =? ".") || (w =? "..")).

(** The shape of the stack of [normalizeString], last segment first: plain
    segments above a run of [..], which is empty for an absolute path. *)
Fixpoint stacked (allow : bool) (res : list string) : bool :=
  match res with
  | [] => true
  | x :: r =>
      if x =? ".." then allow && forallb (fun w => w =? "..") r
      else plain x && stacked allow r
  end.

(** ** Sample configurations *)

(** A project in [/proj] with the default settings, every socket healthy. *)
Definition project : env :=
  {| cPath := "/proj";
     selfPath := "/proj/node_modules/x4build/x4build.mjs";
     settings := def_settings;
     ws_send := fun _ => true |}.

(** The script kept in the project's [tools] directory, which a copy rule
    mirrors into the output. *)
Definition tools_project : env :=
  {| cPath := "/proj";
     selfPath := "/proj/tools/x4build.mjs";
     settings :=
       {| entryPoints := ["src/main.ts"]; outdir := "./bin";
          copy := [ {| from := "tools"; to := "tools" |} ] |};
     ws_send := fun _ => true |}.

(** A project in which [send] throws on socket 1. *)
Definition flaky_project : env :=
  {| cPath := "/proj";
     selfPath := "/proj/node_modules/x4build/x4build.mjs";
     settings := def_settings;
     ws_send := fun ws => negb (Nat.eqb ws 1) |}.

(** The process started with [--outdir=dist] and no [x4build] entry in
    [package.json]. *)
Definition dist_settings : settings_t :=
  resolve_settings
    {| pkg_entryPoints := None; pkg_outdir := None; pkg_copy := None |}
    ["node"; "x4build.mjs"; "--watch"; "--outdir=dist"].

Definition dist_project : env :=
  {| cPath := "/proj";
     selfPath := "/proj/node_modules/x4build/x4build.mjs";
     settings := dist_settings;
     ws_send := fun _ => true |}.

Definition one_of (p : string) (ps : list string) : bool :=
  existsb (String.eqb p) ps.

(** A working directory with the page of the project at its root, and an
    output directory [bin] that holds [index.html], [app.js] and
    [data.unknownext]. *)
Definition sample_fs : fs_api :=
  {| existsSync := fun p =>
       one_of p ["."; "./"; "bin"; "bin/"; "index.html"; "bin/index.html";
                 "bin/app.js"; "bin/data.unknownext"; "/etc/hosts"];
     isDirectory := fun p => one_of p ["."; "./"; "bin"; "bin/"];
     readFile := fun p =>
       if p =? "index.html" then ReadData "<html>project root</html>"
       else if p =? "bin/index.html" then ReadData "<html>app</html>"
       else if p =? "bin/app.js" then ReadData "run()"
       else if p =? "bin/data.unknownext" then ReadData "0 1 2"
       else if p =? "/etc/hosts" then ReadData "127.0.0.1 localhost"
       else if one_of p ["."; "./"; "bin"; "bin/"] then
         ReadError "Error: EISDIR: illegal operation on a directory, read"
       else ReadError "Error: ENOENT: no such file or directory" |}.

(** ** The command line *)

(** [process.argv.some(a => a == flag)] *)
Definition has_flag (flag : string) (argv : list string) : bool :=
  existsb (fun a => a =? flag) argv.

(** [process.argv.find(a => a.startsWith("--http"))], then [substring(2)];
    [None] is [undefined]. *)
Definition httpMode_arg (argv : list string) : option string :=
  option_map (Js.substring 2)
             (find (fun a => Js.startsWith a "--http") argv).

Inductive transport := Http | Https.

(** The [server] variable of [watch()] and of [serve()]: it stays
    [undefined] ([None]) unless the mode is ["https"] or ["http"], and the
    next statement calls a method on it. *)
Definition create_server (httpMode : option string) : option transport :=
  match httpMode with
  | Some m =>
      if m =? "https" then Some Https
      else if m =? "http" then Some Http
      else None
  | None => None
  end.

(** A JavaScript number that came out of [parseInt]: not a number, an
    integer that a double holds exactly, or a larger one, which it rounds. *)
Inductive js_number :=
| NaN
| Num (z : Z)
| Rounded.

(** [\d] *)
Definition is_digit (c : ascii) : bool :=
  Nat.leb 48 (nat_of_ascii c) && Nat.leb (nat_of_ascii c) 57.

Definition digits (s : string) : bool :=
  forallb is_digit (list_ascii_of_string s).

(** A greedy run of digits: the longest prefix of [s] of at most [max]
    digits, and what follows it. *)
Fixpoint take_digits (max : nat) (s : string) : string * string :=
  match max, s with
  | S m, String c r =>
      if is_digit c then
        let (d, rest) := take_digits m r in (String c d, rest)
      else (EmptyString, s)
  | _, _ => (EmptyString, s)
  end.

(** [\d{1,3}\.]  A shorter run never helps: the character after it would be
    a digit, not the dot. *)
Definition octet_dot (s : string) : option (string * string) :=
  match take_digits 3 s with
  | (EmptyString, _) => None
  | (d, String c rest) =>
      if Ascii.eqb c "."%char then Some (d, rest) else None
  | (_, EmptyString) => None
  end.

(** [(:(\d+))?] at the end of the pattern: the digits of group 3, or
    [None] when the group takes no part in the match. *)
Definition port_group (s : string) : option string :=
  match s with
  | String c r =>
      if Ascii.eqb c ":"%char then
        match take_digits (String.length r) r with
        | (EmptyString, _) => None
        | (p, _) => Some p
        end
      else None
  | EmptyString => None
  end.

(** [s] without the prefix [p], when it has that prefix. *)
Fixpoint drop_prefix (p s : string) : option string :=
  match p, s with
  | EmptyString, _ => Some s
  | String a p', String b s' =>
      if Ascii.eqb a b then drop_prefix p' s' else None
  | String _ _, EmptyString => None
  end.

(** The pattern of [check_ip] tried at the head of [s]: groups 1 and 3. *)
Definition ip_at (s : string) : option (string * option string) :=
  match drop_prefix "--ip=" s with
  | None => None
  | Some s1 =>
      match octet_dot s1 with
      | None => None
      | Some (a, s2) =>
          match octet_dot s2 with
          | None => None
          | Some (b, s3) =>
              match octet_dot s3 with
              | None => None
              | Some (c, s4) =>
                  match take_digits 3 s4 with
                  | (EmptyString, _) => None
                  | (d, s5) =>
                      Some (a ++ "." ++ b ++ "." ++ c ++ "." ++ d,
                            port_group s5)
                  end
              end
          end
      end
  end.

(** [re.exec(arg)]: the leftmost place where the pattern matches. *)
Fixpoint re_exec (s : string) : option (string * option string) :=
  match ip_at s with
  | Some m => Some m
  | None =>
      match s with
      | EmptyString => None
      | String _ r => re_exec r
      end
  end.

Definition digit_value (c : ascii) : Z := Z.of_nat (nat_of_ascii c - 48).

Fixpoint decimal (acc : Z) (s : string) : Z :=
  match s with
  | EmptyString => acc
  | String c r => decimal (10 * acc + digit_value c) r
  end.

(** [parseInt(m[3])]: [undefined] gives [NaN]. *)
Definition parseInt (group : option string) : js_number :=
  match group with
  | None => NaN
  | Some p => if (decimal 0 p <=? 2 ^ 53)%Z then Num (decimal 0 p) else Rounded
  end.

Record net := { IP : string; PORT : js_number }.

Definition default_net : net := {| IP := "127.0.0.1"; PORT := Num 3000 |}.

(** [check_ip(argv)]: the first argument that matches sets both globals. *)
Fixpoint check_ip (argv : list string) (n : net) : net * bool :=
  match argv with
  | [] => (n, false)
  | arg :: rest =>
      match re_exec arg with
      | Some (ip, port) => ({| IP := ip; PORT := parseInt port |}, true)
      | None => check_ip rest n
      end
  end.

(** ** After the bundler *)


(** No segment of [p] is [..]. *)
Definition no_climb (p : string) : bool :=
  forallb (fun w => negb (w =? "..")) (Js.split Path.slash p).

(** The first segment of [p] that is neither empty nor [.], if it has
    one. *)
Definition leading_segment (p : string) : option string :=
  hd_error (filter plain (Js.split Path.slash p)).

(** ** The live-reload client

    The script that the [--hmr] banner puts into the page. *)

Definition is_line_terminator (c : ascii) : bool :=
  Ascii.eqb c "010"%char || Ascii.eqb c "013"%char.

(** What [.*] leaves of [s]: it stops before the first line terminator. *)
Fixpoint after_line (s : string) : string :=
  match s with
  | EmptyString => EmptyString
  | String c r => if is_line_terminator c then s else after_line r
  end.

(** [gen_id] in ["?" + gen_id]: a number written out in decimal. *)
Fixpoint uint_digits (d : Decimal.uint) : string :=
  match d with
  | Decimal.Nil => ""
  | Decimal.D0 r => String "0" (uint_digits r)
  | Decimal.D1 r => String "1" (uint_digits r)
  | Decimal.D2 r => String "2" (uint_digits r)
  | Decimal.D3 r => String "3" (uint_digits r)
  | Decimal.D4 r => String "4" (uint_digits r)
  | Decimal.D5 r => String "5" (uint_digits r)
  | Decimal.D6 r => String "6" (uint_digits r)
  | Decimal.D7 r => String "7" (uint_digits r)
  | Decimal.D8 r => String "8" (uint_digits r)
  | Decimal.D9 r => String "9" (uint_digits r)
  end.

Definition stamp (gen_id : N) : string := uint_digits (N.to_uint gen_id).

(** [href.replace(/\?.*|$/, "?" + gen_id)]: the first match is the first
    question mark with the rest of its line, or else the end of the
    string.  [href] is the address the browser gives for the link, which
    is ASCII. *)
Fixpoint replace_query (href : string) (gen_id : N) : string :=
  match href with
  | EmptyString => "?" ++ stamp gen_id
  | String c r =>
      if Ascii.eqb c "?"%char then "?" ++ stamp gen_id ++ after_line r
      else String c (replace_query r gen_id)
  end.

Inductive client_effect :=
| Restyle (hrefs : list string)     (* the stylesheet links, re-stamped *)
| ReloadPage.                       (* [location.reload()] *)

(** [ws.onmessage], on a page whose stylesheet links are [links], at time
    [gen_id]. *)
Definition onmessage (data : string) (gen_id : N) (links : list string)
  : client_effect :=
  if data =? "reload-css" then
    Restyle (map (fun href => replace_query href gen_id) links)
  else ReloadPage.

(** ** Reading a trace *)

Definition connections (ins : list input) : list handle :=
  flat_map (fun i => match i with Connection ws => [ws] | _ => [] end) ins.

Definition is_send (a : action) : bool :=
  match a with Send _ _ => true | _ => false end.

Definition is_start (a : action) : bool :=
  match a with BundlerStart _ => true | _ => false end.

Definition is_end (a : action) : bool :=
  match a with BundlerEnd _ _ => true | _ => false end.

Definition count (f : action -> bool) (t : list action) : nat :=
  List.length (filter f t).

Definition reload_message (a : action) : bool :=
  match a with
  | Send _ msg => (msg =? "reload-css") || (msg =? "reload-js")
  | _ => true
  end.

Definition reload_cont (k : cont) : bool :=
  match k with
  | KReturn => true
  | KBroadcast msg => (msg =? "reload-css") || (msg =? "reload-js")
  end.

(** The test of the pattern [^(\.\.[\/\\])+]: does [s] start with [../] or
    [..\]? *)
Definition leading_parent (s : string) : bool :=
  match s with
  | String a (String b (String c _)) =>
      Ascii.eqb a "."%char && Ascii.eqb b "."%char
      && (Ascii.eqb c "/"%char || Ascii.eqb c "\"%char)
  | _ => false
  end.

(** One to three digits. *)
Definition octet (a : string) : bool :=
  digits a && Nat.leb 1 (String.length a) && Nat.leb (String.length a) 3.


(** * Properties *)

(** ** Facts about the event loop *)

Section Process.

Variable E : env.

Lemma step_dead (s : state) (i : input) :
  alive s = false -> step E s i = s.
Proof. intros H. unfold step. rewrite H. reflexivity. Qed.

Lemma run_dead (s : state) (ins : list input) :
  alive s = false -> run E s ins = s.
Proof.
  induction ins as [|i ins IH]; intros H; [reflexivity|].
  unfold run in *. simpl. rewrite (step_dead s i H). apply IH, H.
Qed.

Lemma run_cons (s : state) (i : input) (ins : list input) :
  run E s (i :: ins) = run E (step E s i) ins.
Proof. reflexivity. Qed.

Lemma run_app (s : state) (xs ys : list input) :
  run E s (xs ++ ys) = run E (run E s xs) ys.
Proof. unfold run. apply fold_left_app. Qed.

(** The broadcast touches the trace only. *)
Lemma settle_shape (b : nat) (ok : bool) (s : state) :
  buildcnt (settle E b ok s) = buildcnt s
  /\ fresh (settle E b ok s) = fresh s
  /\ clients (settle E b ok s) = clients s
  /\ closed (settle E b ok s) = closed s
  /\ (alive (settle E b ok s) = true -> alive s = true).
Proof.
  unfold settle.
  destruct (find _ (running s)) as [[b' k]|];
    [|repeat split; intros H; exact H].
  destruct k as [|msg]; simpl; repeat split; try (intros H; exact H).
  intros H. apply andb_true_iff in H. apply H.
Qed.

(** The handler of a triggering event calls [build()], and nothing else
    before its [await]. *)
Lemma on_all_trigger (s : state) (event targetPath : string) :
  triggers E (Watch event targetPath) = true ->
  exists k, on_all E event targetPath s = build k s.
Proof.
  unfold triggers, on_all, on_extension.
  destruct (is_copy_path E event targetPath); simpl;
    [intros _; eexists; reflexivity|].
  destruct (event =? "change"); simpl; [|discriminate].
  destruct (targetPath =? selfPath E); simpl; [discriminate|].
  generalize (Path.extname targetPath) as ext; intros ext.
  destruct (ext =? ".svg"); simpl; [intros _; eexists; reflexivity|].
  destruct (ext =? ".css"); simpl; [intros _; eexists; reflexivity|].
  destruct (ext =? ".scss"); simpl; [intros _; eexists; reflexivity|].
  destruct (ext =? ".html"); simpl; [intros _; eexists; reflexivity|].
  destruct (ext =? ".ts"); simpl; [intros _; eexists; reflexivity|].
  destruct (ext =? ".js"); simpl; [intros _; eexists; reflexivity|].
  destruct (ext =? ".jsx"); simpl; [intros _; eexists; reflexivity|].
  destruct (ext =? ".tsx"); simpl; [intros _; eexists; reflexivity|].
  destruct (ext =? ".json"); simpl; [|discriminate].
  intros ->. eexists; reflexivity.
Qed.

(** The handler of any other event leaves the state alone or exits. *)
Lemma on_all_other (s : state) (event targetPath : string) :
  triggers E (Watch event targetPath) = false ->
  on_all E event targetPath s = s
  \/ on_all E event targetPath s = process_exit 0 s.
Proof.
  unfold triggers, on_all, on_extension.
  destruct (is_copy_path E event targetPath); simpl; [discriminate|].
  destruct (event =? "change"); simpl; [|intros _; left; reflexivity].
  destruct (targetPath =? selfPath E); simpl;
    [intros _; right; reflexivity|].
  generalize (Path.extname targetPath) as ext; intros ext.
  destruct (ext =? ".svg"); simpl; [discriminate|].
  destruct (ext =? ".css"); simpl; [discriminate|].
  destruct (ext =? ".scss"); simpl; [discriminate|].
  destruct (ext =? ".html"); simpl; [discriminate|].
  destruct (ext =? ".ts"); simpl; [discriminate|].
  destruct (ext =? ".js"); simpl; [discriminate|].
  destruct (ext =? ".jsx"); simpl; [discriminate|].
  destruct (ext =? ".tsx"); simpl; [discriminate|].
  destruct (ext =? ".json"); simpl; [|intros _; left; reflexivity].
  intros ->. left; reflexivity.
Qed.

Lemma step_trigger (s : state) (i : input) :
  alive s = true -> triggers E i = true ->
  exists k, step E s i = build k s.
Proof.
  intros Ha Ht. unfold step. rewrite Ha.
  destruct i as [|event targetPath|b ok|ws|ws|ws]; try discriminate.
  - eexists; reflexivity.
  - apply on_all_trigger, Ht.
Qed.

Lemma step_other_buildcnt (s : state) (i : input) :
  triggers E i = false -> buildcnt (step E s i) = buildcnt s.
Proof.
  intros Ht. unfold step. destruct (alive s); [|reflexivity].
  destruct i as [|event targetPath|b ok|ws|ws|ws]; try discriminate;
    try reflexivity.
  - destruct (on_all_other s event targetPath Ht) as [-> | ->]; reflexivity.
  - apply settle_shape.
Qed.

(** Once the process has exited it stays so. *)
Lemma step_alive (s : state) (i : input) :
  alive (step E s i) = true -> alive s = true.
Proof.
  destruct (alive s) eqn:Ha; [reflexivity|].
  rewrite (step_dead s i Ha). rewrite Ha. intros H; exact H.
Qed.

Lemma run_alive (s : state) (ins : list input) :
  alive (run E s ins) = true -> alive s = true.
Proof.
  revert s. induction ins as [|i ins IH]; intros s H; [exact H|].
  rewrite run_cons in H. apply (step_alive s i), IH, H.
Qed.

(** The registry only grows. *)
Lemma step_clients (s : state) (i : input) :
  exists more, clients (step E s i) = (clients s ++ more)%list.
Proof.
  unfold step. destruct (alive s);
    [|exists []; symmetry; apply app_nil_r].
  destruct i as [|event targetPath|b ok|ws|ws|ws]; simpl.
  - exists []; symmetry; apply app_nil_r.
  - unfold on_all, on_extension.
    repeat match goal with
           | |- context [if ?c then _ else _] => destruct c
           end; exists []; symmetry; apply app_nil_r.
  - exists []. rewrite app_nil_r. apply settle_shape.
  - exists [ws]. reflexivity.
  - exists []; symmetry; apply app_nil_r.
  - exists []; symmetry; apply app_nil_r.
Qed.

Lemma run_clients (s : state) (ins : list input) :
  exists more, clients (run E s ins) = (clients s ++ more)%list.
Proof.
  revert s. induction ins as [|i ins IH]; intros s.
  - exists []; symmetry; apply app_nil_r.
  - rewrite run_cons. destruct (IH (step E s i)) as [m1 H1].
    destruct (step_clients s i) as [m2 H2].
    exists (m2 ++ m1)%list. rewrite H1, H2. symmetry; apply app_assoc.
Qed.

(** What a broadcast does on a registry that holds [ws]. *)
Lemma forEach_send_reaches (send : handle -> bool) (msg : string)
      (cl : list handle) (ws : handle) :
  In ws cl ->
  In (Send ws msg) (fst (forEach_send send msg cl))
  \/ snd (forEach_send send msg cl) = false.
Proof.
  induction cl as [|h cl IH]; intros Hin; [destruct Hin|].
  simpl. destruct (send h) eqn:Hs; [|right; reflexivity].
  destruct (forEach_send send msg cl) as [acts ok]; simpl in *.
  destruct Hin as [-> | Hin]; [left; left; reflexivity|].
  destruct (IH Hin) as [H | H]; [left; right; exact H | right; exact H].
Qed.

Lemma forEach_send_all (send : handle -> bool) (msg : string)
      (cl : list handle) :
  (forall ws, In ws cl -> send ws = true) ->
  forEach_send send msg cl = (map (fun ws => Send ws msg) cl, true).
Proof.
  induction cl as [|h cl IH]; intros Hall; [reflexivity|].
  simpl. rewrite (Hall h (or_introl eq_refl)).
  rewrite IH; [reflexivity|].
  intros ws Hin. apply Hall. right; exact Hin.
Qed.

Lemma forEach_send_throw (send : handle -> bool) (msg : string)
      (pre post : list handle) (ws : handle) :
  (forall h, In h pre -> send h = true) ->
  send ws = false ->
  forEach_send send msg (pre ++ ws :: post)%list
  = (map (fun h => Send h msg) (pre ++ [ws])%list, false).
Proof.
  induction pre as [|h pre IH]; intros Hpre Hws; simpl.
  - rewrite Hws. reflexivity.
  - rewrite (Hpre h (or_introl eq_refl)).
    rewrite IH; [reflexivity| |exact Hws].
    intros h' Hin. apply Hpre. right; exact Hin.
Qed.

End Process.

(** ** The build counter *)

Lemma js_incr_exact (n : Z) : (n < 2 ^ 53)%Z -> js_incr n = (n + 1)%Z.
Proof.
  intros H. unfold js_incr.
  destruct (Z.ltb_spec n (2 ^ 53)) as [_ | Hge]; [reflexivity | lia].
Qed.

(** C7: over any sequence of events, with builds succeeding and failing in
    any mix, the counter ends at its initial value plus the number K of calls
    of [build()], as long as it stays in the range where a JavaScript number
    counts exactly. *)
Theorem C7_counter_counts_every_call (E : env) (s : state)
        (ins : list input) (K : nat) :
  alive (run E s ins) = true ->
  List.length (filter (triggers E) ins) = K ->
  (buildcnt s + Z.of_nat K <= 2 ^ 53)%Z ->
  buildcnt (run E s ins) = (buildcnt s + Z.of_nat K)%Z.
Proof.
  revert s K. induction ins as [|i ins IH]; intros s K Ha HK Hb.
  - simpl in HK. subst K. simpl. lia.
  - rewrite run_cons in *.
    assert (Ha1 : alive (step E s i) = true) by (apply (run_alive E _ ins), Ha).
    assert (Ha0 : alive s = true) by (apply (step_alive E s i), Ha1).
    simpl in HK. destruct (triggers E i) eqn:Ht.
    + simpl in HK. destruct K as [|K']; [discriminate|].
      injection HK as HK.
      destruct (step_trigger E s i Ha0 Ht) as [k Hk].
      assert (Hc : buildcnt (step E s i) = (buildcnt s + 1)%Z).
      { rewrite Hk. simpl. apply js_incr_exact. lia. }
      rewrite (IH (step E s i) K' Ha HK); lia.
    + rewrite (IH (step E s i) K Ha HK);
        rewrite (step_other_buildcnt E s i Ht); [reflexivity | exact Hb].
Qed.

Lemma C7_counter_witness :
  buildcnt
    (run project initial
       [Startup; Settled 0 false; Watch "change" "/proj/src/app.tsx";
        Watch "change" "/proj/styles/app.scss"; Settled 2 true;
        Settled 1 false; Watch "add" "/proj/src/new.ts"])
  = (1 + 3)%Z.
Proof.
  apply (C7_counter_counts_every_call project initial _ 3).
  - reflexivity.
  - reflexivity.
  - vm_compute. discriminate.
Defined.

(** ** Builds in flight *)

(** C1, as the code has it: there is no gate on builds in flight.  Every
    call of [build()] starts its own bundler invocation at once, so the
    triggers that arrive before the earlier invocations settle add one
    concurrent invocation each. *)
Theorem C1_every_trigger_starts_a_bundler (E : env) (s : state)
        (ins : list input) :
  alive s = true ->
  Forall (fun i => triggers E i = true) ins ->
  in_flight (run E s ins) = in_flight s + List.length ins.
Proof.
  revert s. induction ins as [|i ins IH]; intros s Ha Hall.
  - simpl. lia.
  - inversion Hall as [|i' ins' Hi Hins]; subst.
    rewrite run_cons.
    destruct (step_trigger E s i Ha Hi) as [k Hk].
    rewrite IH; [|rewrite Hk; exact Ha|exact Hins].
    rewrite Hk. unfold in_flight, build; simpl.
    rewrite length_app. simpl. lia.
Qed.

Lemma C1_trigger_witness :
  in_flight
    (run project initial
       [Startup; Watch "change" "/proj/package.json";
        Watch "change" "/proj/src/app.tsx"])
  = 0 + 3.
Proof.
  apply (C1_every_trigger_starts_a_bundler project initial).
  - reflexivity.
  - repeat constructor.
Defined.

(** The start-up build is still running when a source file changes: two
    bundler invocations are in flight. *)
Lemma C1_two_builds_in_flight :
  ~ (in_flight
       (run project initial [Startup; Watch "change" "/proj/src/app.tsx"])
     <= 1)
  /\ trace (run project initial [Startup; Watch "change" "/proj/src/app.tsx"])
     = [BundlerStart 0; BundlerStart 1].
Proof.
  split; [vm_compute; lia | reflexivity].
Qed.

(** ** Events that are not changes *)

(** C10: an added file that matches no copy rule changes nothing: no build,
    no message. *)
Theorem C10_add_outside_copy_rules_is_a_no_op (E : env) (s : state)
        (targetPath : string) :
  is_copy_path E "add" targetPath = false ->
  step E s (Watch "add" targetPath) = s.
Proof.
  intros Hc. unfold step. destruct (alive s); [|reflexivity].
  unfold on_all. rewrite Hc. reflexivity.
Qed.

Lemma C10_add_witness :
  step project initial (Watch "add" "/proj/src/new.tsx") = initial.
Proof.
  apply (C10_add_outside_copy_rules_is_a_no_op project initial).
  reflexivity.
Defined.

(** The same holds of every event other than ["change"]. *)
Lemma other_events_outside_copy_rules (E : env) (s : state)
      (event targetPath : string) :
  (event =? "change") = false ->
  is_copy_path E event targetPath = false ->
  step E s (Watch event targetPath) = s.
Proof.
  intros He Hc. unfold step. destruct (alive s); [|reflexivity].
  unfold on_all. rewrite Hc, He. reflexivity.
Qed.

(** ** A change of the running script *)

(** Where no copy rule matches, a change of the running script ends the
    process at once; no build starts, no message is sent, and no later
    event has any effect. *)
Lemma C6_self_change_exits (E : env) (s : state) :
  alive s = true ->
  is_copy_path E "change" (selfPath E) = false ->
  step E s (Watch "change" (selfPath E)) = process_exit 0 s
  /\ forall ins,
       run E (step E s (Watch "change" (selfPath E))) ins = process_exit 0 s.
Proof.
  intros Ha Hc.
  assert (H : step E s (Watch "change" (selfPath E)) = process_exit 0 s).
  { unfold step. rewrite Ha. unfold on_all. rewrite Hc.
    rewrite (String.eqb_refl (selfPath E)). reflexivity. }
  split; [exact H|].
  intros ins. rewrite H. apply run_dead. reflexivity.
Qed.

Lemma C6_self_change_witness :
  step project initial (Watch "change" (selfPath project))
  = process_exit 0 initial
  /\ forall ins,
       run project (step project initial (Watch "change" (selfPath project)))
           ins
       = process_exit 0 initial.
Proof.
  apply (C6_self_change_exits project initial); reflexivity.
Defined.

(** The script lies under a copy rule's source: its change starts a build
    and the process goes on. *)
Lemma C6_self_under_copy_rule_builds :
  alive (step tools_project initial (Watch "change" (selfPath tools_project)))
  = true
  /\ trace (step tools_project initial
                 (Watch "change" (selfPath tools_project)))
     = [BundlerStart 0].
Proof. split; reflexivity. Qed.

(** C6, at the inputs where the code departs from it: the handler tests the
    copy rules first and returns after the build, so when the running
    script matches a copy rule its change never reaches the exit: a build
    starts, nothing else is noted, and the process goes on. *)
Theorem C6_copy_rule_check_precedes_exit (E : env) (s : state) :
  alive s = true ->
  is_copy_path E "change" (selfPath E) = true ->
  let s' := step E s (Watch "change" (selfPath E)) in
  s' = build KReturn s
  /\ alive s' = true
  /\ trace s' = (trace s ++ [BundlerStart (fresh s)])%list.
Proof.
  intros Ha Hc s'.
  assert (H : s' = build KReturn s).
  { unfold s', step. rewrite Ha. unfold on_all. rewrite Hc. reflexivity. }
  rewrite H. simpl. repeat split. exact Ha.
Qed.

Lemma C6_copy_rule_witness :
  let s' := step tools_project initial
                 (Watch "change" "/proj/tools/x4build.mjs") in
  s' = build KReturn initial
  /\ alive s' = true
  /\ trace s' = [BundlerStart 0].
Proof.
  apply (C6_copy_rule_check_precedes_exit tools_project initial);
    reflexivity.
Defined.

(** ** Callers suspended on a build *)

Section Suspended.

Variable E : env.

Lemma find_app_some {A : Type} (f : A -> bool) (xs ys : list A) (a : A) :
  find f xs = Some a -> find f (xs ++ ys) = Some a.
Proof.
  induction xs as [|x xs IH]; simpl; [discriminate|].
  destruct (f x); [intros H; exact H | exact IH].
Qed.

Lemma find_app_none {A : Type} (f : A -> bool) (xs ys : list A) :
  find f xs = None -> find f (xs ++ ys) = find f ys.
Proof.
  induction xs as [|x xs IH]; simpl; [reflexivity|].
  destruct (f x); [discriminate | exact IH].
Qed.

Lemma find_filter_other (b b' : nat) (rs : list (nat * cont)) :
  b <> b' ->
  find (named b) (filter (fun r => negb (named b' r)) rs)
  = find (named b) rs.
Proof.
  intros Hne. induction rs as [|r rs IH]; simpl; [reflexivity|].
  unfold named in *.
  destruct (Nat.eqb_spec (fst r) b') as [Hb' | Hb']; simpl.
  - destruct (Nat.eqb_spec (fst r) b) as [Hb | Hb]; [congruence | exact IH].
  - destruct (Nat.eqb (fst r) b); [reflexivity | exact IH].
Qed.

Lemma find_filter_same (b : nat) (rs : list (nat * cont)) :
  find (named b) (filter (fun r => negb (named b r)) rs) = None.
Proof.
  induction rs as [|r rs IH]; simpl; [reflexivity|].
  unfold named in *.
  destruct (Nat.eqb (fst r) b) eqn:Hb; simpl; [exact IH|].
  rewrite Hb. exact IH.
Qed.

Lemma filter_absent (b : nat) (rs : list (nat * cont)) :
  find (named b) rs = None ->
  filter (fun r => negb (named b r)) rs = rs.
Proof.
  induction rs as [|r rs IH]; simpl; [reflexivity|].
  unfold named in *.
  destruct (Nat.eqb (fst r) b); simpl; [discriminate|].
  intros H. rewrite (IH H). reflexivity.
Qed.

Lemma settle_running (b : nat) (ok : bool) (s : state) :
  running (settle E b ok s)
  = filter (fun r => negb (named b r)) (running s).
Proof.
  unfold settle. fold (named b).
  destruct (find (named b) (running s)) as [[b' k]|] eqn:Hf.
  - destruct k; reflexivity.
  - symmetry. apply filter_absent, Hf.
Qed.

Lemma named_apart_initial : named_apart initial.
Proof. constructor. Qed.

Lemma named_apart_build (k : cont) (s : state) :
  named_apart s -> named_apart (build k s).
Proof.
  unfold named_apart, build; simpl. intros H.
  apply Forall_app. split.
  - apply (Forall_impl _ (P := fun r => fst r < fresh s)); [|exact H].
    intros r Hr. lia.
  - constructor; [simpl; lia | constructor].
Qed.

Lemma named_apart_step (s : state) (i : input) :
  named_apart s -> named_apart (step E s i).
Proof.
  intros H. unfold step. destruct (alive s); [|exact H].
  destruct i as [|event targetPath|b ok|ws|ws|ws]; try exact H.
  - apply named_apart_build, H.
  - destruct (triggers E (Watch event targetPath)) eqn:Ht.
    + destruct (on_all_trigger E s event targetPath Ht) as [k ->].
      apply named_apart_build, H.
    + destruct (on_all_other E s event targetPath Ht) as [-> | ->];
        exact H.
  - unfold named_apart. rewrite settle_running.
    destruct (settle_shape E b ok s) as (_ & -> & _).
    apply incl_Forall with (l1 := running s); [|exact H].
    intros r Hr. apply filter_In in Hr. apply Hr.
Qed.

Lemma named_apart_run (s : state) (ins : list input) :
  named_apart s -> named_apart (run E s ins).
Proof.
  revert s. induction ins as [|i ins IH]; intros s H; [exact H|].
  rewrite run_cons. apply IH, named_apart_step, H.
Qed.

Lemma named_apart_fresh (s : state) :
  named_apart s -> find (named (fresh s)) (running s) = None.
Proof.
  unfold named_apart. induction (running s) as [|r rs IH]; intros H;
    [reflexivity|].
  inversion H as [|r' rs' Hr Hrs]; subst. simpl. unfold named at 1.
  destruct (Nat.eqb_spec (fst r) (fresh s)) as [Heq | _]; [lia|].
  apply IH, Hrs.
Qed.

(** The caller of a fresh build is suspended on it. *)
Lemma suspended_on_build (k : cont) (s : state) :
  named_apart s -> suspended_on (fresh s) (build k s) = Some k.
Proof.
  intros H. unfold suspended_on, build; simpl. fold (named (fresh s)).
  rewrite find_app_none by (apply named_apart_fresh, H).
  simpl. unfold named; simpl. rewrite Nat.eqb_refl. reflexivity.
Qed.

Lemma suspended_on_build_other (b : nat) (k k' : cont) (s : state) :
  suspended_on b s = Some k -> suspended_on b (build k' s) = Some k.
Proof.
  unfold suspended_on, build; simpl. fold (named b).
  destruct (find (named b) (running s)) as [r|] eqn:Hf; [|discriminate].
  intros H. rewrite (find_app_some _ _ _ _ Hf). exact H.
Qed.

(** It stays suspended until that very build settles. *)
Lemma suspended_on_step (b : nat) (k : cont) (s : state) (i : input) :
  suspended_on b s = Some k ->
  (forall ok, i <> Settled b ok) ->
  suspended_on b (step E s i) = Some k.
Proof.
  intros Hs Hi. unfold step. destruct (alive s); [|exact Hs].
  destruct i as [|event targetPath|b' ok|ws|ws|ws]; try exact Hs.
  - apply suspended_on_build_other, Hs.
  - destruct (triggers E (Watch event targetPath)) eqn:Ht.
    + destruct (on_all_trigger E s event targetPath Ht) as [k' ->].
      apply suspended_on_build_other, Hs.
    + destruct (on_all_other E s event targetPath Ht) as [-> | ->];
        exact Hs.
  - unfold suspended_on. rewrite settle_running. fold (named b).
    rewrite find_filter_other; [exact Hs|].
    intros Heq. subst b'. apply (Hi ok). reflexivity.
Qed.

Lemma suspended_on_run (b : nat) (k : cont) (s : state)
      (ins : list input) :
  suspended_on b s = Some k ->
  (forall ok, ~ In (Settled b ok) ins) ->
  suspended_on b (run E s ins) = Some k.
Proof.
  revert s. induction ins as [|i ins IH]; intros s Hs Hi; [exact Hs|].
  rewrite run_cons. apply IH.
  - apply suspended_on_step; [exact Hs|].
    intros ok Heq. apply (Hi ok). left. exact Heq.
  - intros ok Hin. apply (Hi ok). right. exact Hin.
Qed.

(** When the build settles the caller resumes, once. *)
Lemma settle_resumes (b : nat) (ok : bool) (k : cont) (s : state) :
  suspended_on b s = Some k ->
  trace (settle E b ok s)
  = (trace s ++ BundlerEnd b ok ::
       match k with
       | KReturn => []
       | KBroadcast msg => broadcast (ws_send E) msg (clients s)
       end)%list
  /\ suspended_on b (settle E b ok s) = None.
Proof.
  intros Hs. split.
  - unfold suspended_on in Hs. unfold settle.
    destruct (find _ (running s)) as [[b' k']|]; [|discriminate].
    simpl in Hs. injection Hs as ->.
    destruct k as [|msg]; simpl; [reflexivity|].
    rewrite <- app_assoc. reflexivity.
  - unfold suspended_on. rewrite settle_running. fold (named b).
    rewrite find_filter_same. reflexivity.
Qed.

Lemma broadcast_all (msg : string) (cl : list handle) :
  (forall ws, In ws cl -> ws_send E ws = true) ->
  broadcast (ws_send E) msg cl = map (fun ws => Send ws msg) cl.
Proof.
  intros H. unfold broadcast. rewrite (forEach_send_all _ _ _ H).
  apply app_nil_r.
Qed.

(** The handler on a changed style or code file. *)
Lemma on_all_classified (s : state) (targetPath msg : string) :
  is_copy_path E "change" targetPath = false ->
  (targetPath =? selfPath E) = false ->
  (In (Path.extname targetPath) [".css"; ".scss"; ".svg"]
   /\ msg = "reload-css")
  \/ (In (Path.extname targetPath) [".html"; ".js"; ".jsx"; ".ts"; ".tsx"]
      /\ msg = "reload-js") ->
  on_all E "change" targetPath s = build (KBroadcast msg) s.
Proof.
  intros Hc Hself Hext. unfold on_all. rewrite Hc, Hself.
  change ("change" =? "change") with true. cbv iota.
  unfold on_extension.
  destruct Hext as [[Hin ->] | [Hin ->]]; simpl in Hin;
    repeat (destruct Hin as [<- | Hin]; [reflexivity|]);
    destruct Hin.
Qed.

End Suspended.

(** ** Changed style and code files *)

Lemma settle_alive (E : env) (b : nat) (ok : bool) (msg : string)
      (s : state) :
  suspended_on b s = Some (KBroadcast msg) ->
  alive (settle E b ok s)
  = alive s && snd (forEach_send (ws_send E) msg (clients s)).
Proof.
  unfold suspended_on, settle.
  destruct (find (named b) (running s)) as [[b' k]|]; [|discriminate].
  simpl. intros H. injection H as ->. reflexivity.
Qed.

Lemma settle_absent (E : env) (b : nat) (ok : bool) (s : state) :
  suspended_on b s = None -> settle E b ok s = s.
Proof.
  unfold suspended_on, settle.
  destruct (find (named b) (running s)) as [[b' k]|]; [discriminate|].
  reflexivity.
Qed.

(** C4, as the code has it: in any state the process can reach, a change
    of a file that is not the running script and matches no copy rule, with
    a style extension (or a code or markup extension), starts one build and
    sends nothing yet.  When that build settles, whether it succeeded or
    failed and whatever happened in between, the handler sends [reload-css]
    (or [reload-js]) to the sockets registered at that moment, in the order
    they registered: to every one of them, once, when no [send] throws; up
    to the first [send] that throws otherwise, after which the rest get
    nothing and the process ends.  The handler does this once: the same
    promise settling again changes nothing. *)
Theorem C4_change_builds_then_broadcasts (E : env) (before : list input)
        (targetPath msg : string) :
  let s := run E initial before in
  let b := fresh s in
  let s1 := step E s (Watch "change" targetPath) in
  alive s = true ->
  is_copy_path E "change" targetPath = false ->
  (targetPath =? selfPath E) = false ->
  (In (Path.extname targetPath) [".css"; ".scss"; ".svg"]
   /\ msg = "reload-css")
  \/ (In (Path.extname targetPath) [".html"; ".js"; ".jsx"; ".ts"; ".tsx"]
      /\ msg = "reload-js") ->
  buildcnt s1 = js_incr (buildcnt s)
  /\ trace s1 = (trace s ++ [BundlerStart b])%list
  /\ forall (later : list input) (ok : bool),
       (forall ok', ~ In (Settled b ok') later) ->
       let s2 := run E s1 later in
       let s3 := step E s2 (Settled b ok) in
       alive s2 = true ->
       ((forall ws, In ws (clients s2) -> ws_send E ws = true) ->
        trace s3
        = (trace s2 ++ BundlerEnd b ok ::
             map (fun ws => Send ws msg) (clients s2))%list
        /\ alive s3 = true)
       /\ (forall pre ws post,
             clients s2 = (pre ++ ws :: post)%list ->
             (forall h, In h pre -> ws_send E h = true) ->
             ws_send E ws = false ->
             trace s3
             = (trace s2 ++ BundlerEnd b ok ::
                  map (fun h => Send h msg) (pre ++ [ws])
                  ++ [UnhandledRejection])%list
             /\ alive s3 = false)
       /\ (forall ok', step E s3 (Settled b ok') = s3).
Proof.
  intros s b s1 Ha Hc Hself Hext.
  assert (Hs1 : s1 = build (KBroadcast msg) s).
  { unfold s1, step. rewrite Ha.
    apply on_all_classified; assumption. }
  assert (Hn : named_apart s)
    by (apply named_apart_run, named_apart_initial).
  split; [rewrite Hs1; reflexivity|].
  split; [rewrite Hs1; reflexivity|].
  intros later ok Hlater s2 s3 Ha2.
  assert (Hsus : suspended_on b s2 = Some (KBroadcast msg)).
  { apply suspended_on_run; [|exact Hlater].
    rewrite Hs1. apply suspended_on_build, Hn. }
  assert (Hs3 : s3 = settle E b ok s2).
  { unfold s3, step. rewrite Ha2. reflexivity. }
  destruct (settle_resumes E b ok _ s2 Hsus) as [Ht Hgone].
  pose proof (settle_alive E b ok msg s2 Hsus) as Hal.
  rewrite Ha2 in Hal. simpl in Hal.
  rewrite <- Hs3 in Ht, Hgone, Hal.
  split; [|split].
  - intros Hall. rewrite Ht, Hal, (broadcast_all E msg _ Hall).
    rewrite (forEach_send_all _ _ _ Hall). split; reflexivity.
  - intros pre ws post Hcl Hpre Hws. rewrite Ht, Hal. unfold broadcast.
    rewrite Hcl, (forEach_send_throw (ws_send E) msg pre post ws Hpre Hws).
    split; reflexivity.
  - intros ok'. unfold step. destruct (alive s3); [|reflexivity].
    apply settle_absent, Hgone.
Qed.

Lemma C4_change_witness :
  let s := run project initial [Connection 4; Connection 5] in
  let s1 := step project s (Watch "change" "/proj/styles/app.scss") in
  buildcnt s1 = 2%Z
  /\ trace s1 = [BundlerStart 0]
  /\ trace (step project (run project s1 [Connection 6]) (Settled 0 true))
     = [BundlerStart 0; BundlerEnd 0 true;
        Send 4 "reload-css"; Send 5 "reload-css"; Send 6 "reload-css"].
Proof.
  intros s s1.
  destruct (C4_change_builds_then_broadcasts project
              [Connection 4; Connection 5] "/proj/styles/app.scss"
              "reload-css")
    as (Hcnt & Htrace & Hlater).
  - reflexivity.
  - reflexivity.
  - reflexivity.
  - left. split; [right; left; reflexivity | reflexivity].
  - split; [exact Hcnt|]. split; [exact Htrace|].
    destruct (Hlater [Connection 6] true) as (Hsend & _).
    + intros ok' [Heq | []]. discriminate Heq.
    + reflexivity.
    + apply Hsend. intros ws _. reflexivity.
Defined.

(** [send] throws on socket 1, which registered first: after a change of a
    style sheet the healthy socket 2 is sent nothing. *)
Lemma C4_healthy_socket_is_skipped :
  let target := "/proj/styles/app.scss" in
  let s := run flaky_project initial
             [Connection 1; Connection 2; Watch "change" target;
              Settled 0 true] in
  ignore "/proj" target = false
  /\ is_copy_path flaky_project "change" target = false
  /\ (target =? selfPath flaky_project) = false
  /\ Path.extname target = ".scss"
  /\ clients s = [1; 2]
  /\ ws_send flaky_project 2 = true
  /\ trace s
     = [BundlerStart 0; BundlerEnd 0 true; Send 1 "reload-css";
        UnhandledRejection]
  /\ ~ In (Send 2 "reload-css") (trace s).
Proof.
  repeat split; try reflexivity.
  simpl. intros [H | [H | [H | [H | []]]]]; discriminate H.
Qed.

(** ** The connection registry *)

(** C3, as the code has it: nothing is ever removed from the registry.  A
    socket whose client has gone away stays registered through every later
    event, and a later broadcast calls [send] on it, unless an earlier
    [send] of that same broadcast throws. *)
Theorem C3_closed_socket_stays_registered (E : env) (s : state)
        (ws : handle) (later : list input) (msg : string) :
  alive s = true ->
  In ws (clients s) ->
  let s' := run E s (Close ws :: later) in
  In ws (closed (step E s (Close ws)))
  /\ In ws (clients s')
  /\ exists acts,
       trace (sendClientMessage E msg s') = (trace s' ++ acts)%list
       /\ (In (Send ws msg) acts \/ In UnhandledRejection acts).
Proof.
  intros Ha Hin s'.
  assert (Hreg : In ws (clients s')).
  { destruct (run_clients E s (Close ws :: later)) as [more Hm].
    unfold s'. rewrite Hm. apply in_or_app. left. exact Hin. }
  split.
  - unfold step. rewrite Ha. simpl. apply in_or_app. right. left. reflexivity.
  - split; [exact Hreg|].
    exists (broadcast (ws_send E) msg (clients s')).
    split; [reflexivity|]. unfold broadcast.
    pose proof (forEach_send_reaches (ws_send E) msg (clients s') ws Hreg)
      as Hreach.
    destruct (forEach_send (ws_send E) msg (clients s')) as [acts ok].
    simpl in Hreach. destruct Hreach as [H | ->].
    + left. apply in_or_app. left. exact H.
    + right. apply in_or_app. right. left. reflexivity.
Qed.

Lemma C3_registry_witness :
  let s := run project initial [Connection 7] in
  let s' := run project s [Close 7; Connection 8] in
  In 7 (closed (step project s (Close 7)))
  /\ In 7 (clients s')
  /\ exists acts,
       trace (sendClientMessage project "reload-js" s')
       = (trace s' ++ acts)%list
       /\ (In (Send 7 "reload-js") acts \/ In UnhandledRejection acts).
Proof.
  apply (C3_closed_socket_stays_registered project
           (run project initial [Connection 7]) 7 [Connection 8] "reload-js").
  - reflexivity.
  - left. reflexivity.
Defined.

(** A client connects and goes away; the next change of a source file is
    broadcast to its socket. *)
Lemma C3_send_on_closed_socket :
  let s := run project initial [Connection 7; Close 7] in
  In 7 (closed s)
  /\ In 7 (clients s)
  /\ trace (run project s
              [Watch "change" "/proj/src/app.tsx"; Settled 0 true])
     = [BundlerStart 0; BundlerEnd 0 true; Send 7 "reload-js"].
Proof.
  split; [left; reflexivity|]. split; [left; reflexivity|]. reflexivity.
Qed.

(** ** Broadcast *)

(** C8, as the code has it: the sockets are served in the order they
    registered.  When no [send] throws, each one is sent the message once;
    when one throws, the sockets registered after it are sent nothing and
    the exception leaves the handler as an unhandled rejection. *)
Theorem C8_broadcast_stops_at_first_throw (E : env) (msg : string)
        (s : state) :
  ((forall ws, In ws (clients s) -> ws_send E ws = true) ->
   trace (sendClientMessage E msg s)
   = (trace s ++ map (fun ws => Send ws msg) (clients s))%list)
  /\ (forall pre ws post,
        clients s = (pre ++ ws :: post)%list ->
        (forall h, In h pre -> ws_send E h = true) ->
        ws_send E ws = false ->
        trace (sendClientMessage E msg s)
        = (trace s ++ map (fun h => Send h msg) (pre ++ [ws])
             ++ [UnhandledRejection])%list).
Proof.
  split.
  - intros Hall. unfold sendClientMessage. simpl.
    rewrite (broadcast_all E msg _ Hall). reflexivity.
  - intros pre ws post Hcl Hpre Hws. unfold sendClientMessage, broadcast.
    simpl. rewrite Hcl.
    rewrite (forEach_send_throw (ws_send E) msg pre post ws Hpre Hws).
    reflexivity.
Qed.

Lemma C8_broadcast_witness :
  let s := run flaky_project initial [Connection 0; Connection 1; Connection 2]
  in trace (sendClientMessage flaky_project "reload-css" s)
     = [Send 0 "reload-css"; Send 1 "reload-css"; UnhandledRejection].
Proof.
  intros s.
  apply (proj2 (C8_broadcast_stops_at_first_throw flaky_project
                  "reload-css" s) [0] 1 [2]).
  - reflexivity.
  - intros h [<- | []]. reflexivity.
  - reflexivity.
Defined.

(** [send] throws on the first of two sockets: the second one is never
    sent the message. *)
Lemma C8_send_failure_starves_the_rest :
  let s := run flaky_project initial [Connection 1; Connection 2] in
  clients s = [1; 2]
  /\ ws_send flaky_project 2 = true
  /\ ~ In (Send 2 "reload-js")
          (trace (sendClientMessage flaky_project "reload-js" s))
  /\ In UnhandledRejection
        (trace (sendClientMessage flaky_project "reload-js" s)).
Proof.
  split; [reflexivity|]. split; [reflexivity|]. split.
  - simpl. intros [H | [H | []]]; discriminate H.
  - simpl. right. left. reflexivity.
Qed.

(** ** The watcher's ignore predicate *)

(** The default output directory and the dependency cache at the root of the
    project are ignored. *)
Lemma ignore_default_locations :
  ignore "/proj" "/proj/bin/main.js" = true
  /\ ignore "/proj" "/proj/bin/assets/logo-1A2B.png" = true
  /\ ignore "/proj" "/proj/node_modules/ws/index.js" = true.
Proof. repeat split; reflexivity. Qed.

(** C5, at the input where the code departs from it: started with
    [--outdir=dist], the process writes its bundles to [dist], and a file
    under [dist] is not ignored; its change starts another build. *)
Theorem C5_overridden_outdir_is_watched :
  outdir dist_settings = "dist"
  /\ inside (outdir dist_settings) "dist/main.js" = true
  /\ ignore (cPath dist_project) "/proj/dist/main.js" = false
  /\ trace (step dist_project initial (Watch "change" "/proj/dist/main.js"))
     = [BundlerStart 0].
Proof. repeat split; reflexivity. Qed.

(** ** The static file server *)

(** The request of the traversal test is answered with 404. *)
Lemma traversal_request_not_found :
  resolved def_settings "/../../../etc/hosts" = "bin/etc/hosts"
  /\ on_request def_settings sample_fs "/../../../etc/hosts"
     = {| statusCode := 404; headers := [];
          body := "File bin/etc/hosts not found!" |}.
Proof. split; reflexivity. Qed.

(** C2, at the input where the code departs from it: the request target
    [*/../..] normalizes to a bare [..], which the pattern leaves in place
    because no separator follows it; joined onto the output directory it
    names the directory above, whose [index.html] is served. *)
Theorem C2_bare_parent_escapes :
  sanitizePath "*/../.." = ".."
  /\ resolved def_settings "*/../.." = "."
  /\ inside (outdir def_settings) (resolved def_settings "*/../..") = false
  /\ on_request def_settings sample_fs "*/../.."
     = {| statusCode := 200;
          headers := [("Content-type", "text/html")];
          body := "<html>project root</html>" |}.
Proof. repeat split; reflexivity. Qed.

(** ** Request paths that start with a separator

    A request in origin form has a path that starts with [/].  For those the
    sanitizing step is sound: the resolved path is the output directory
    followed by segments that do not climb. *)

Section OriginForm.

Let sp := Js.split Path.slash.

Lemma split_not_nil (s : string) : sp s <> [].
Proof.
  unfold sp. destruct s as [|a r]; simpl; [discriminate|].
  destruct (Ascii.eqb a Path.slash); [discriminate|].
  destruct (Js.split Path.slash r); discriminate.
Qed.

Lemma split_app (a b : string) :
  sp (a ++ String Path.slash b) = (sp a ++ sp b)%list.
Proof.
  unfold sp. induction a as [|c a IH]; simpl.
  - reflexivity.
  - destruct (Ascii.eqb c Path.slash).
    + rewrite IH. reflexivity.
    + rewrite IH.
      destruct (Js.split Path.slash a) as [|w ws] eqn:Hs;
        [exfalso; exact (split_not_nil a Hs)|].
      reflexivity.
Qed.

Lemma split_free (w : string) : free w = true -> sp w = [w].
Proof.
  unfold sp. induction w as [|c w IH]; simpl; [reflexivity|].
  destruct (Ascii.eqb c Path.slash); simpl; [discriminate|].
  intros H. rewrite (IH H). reflexivity.
Qed.

Lemma split_all_free (s : string) :
  Forall (fun w => free w = true) (sp s).
Proof.
  unfold sp. induction s as [|c s IH]; simpl.
  - constructor; [reflexivity | constructor].
  - destruct (Ascii.eqb c Path.slash) eqn:Hc.
    + constructor; [reflexivity | exact IH].
    + destruct (Js.split Path.slash s) as [|w ws];
        [constructor; [simpl; rewrite Hc; reflexivity | constructor]|].
      inversion IH as [|w' ws' Hw Hws]; subst.
      constructor; [simpl; rewrite Hc; exact Hw | exact Hws].
Qed.

Lemma join_cons (x y : string) (r : list string) :
  Js.join "/" (x :: y :: r) = x ++ String Path.slash (Js.join "/" (y :: r)).
Proof. reflexivity. Qed.

Lemma split_join (segs : list string) :
  segs <> [] ->
  Forall (fun w => free w = true) segs ->
  sp (Js.join "/" segs) = segs.
Proof.
  induction segs as [|x r IH]; intros Hne Hall; [contradiction|].
  inversion Hall as [|x' r' Hx Hr]; subst.
  destruct r as [|y r].
  - simpl. apply split_free, Hx.
  - rewrite join_cons, split_app, (split_free x Hx), IH;
      [reflexivity | discriminate | exact Hr].
Qed.

(** *** [normalizeString] on segments *)

Lemma norm_step_plain (allow : bool) (res : list string) (w : string) :
  plain w = true -> Path.norm_step allow res w = w :: res.
Proof.
  unfold plain, Path.norm_step. intros H.
  apply negb_true_iff in H.
  apply orb_false_iff in H. destruct H as [H H2].
  rewrite H, H2. reflexivity.
Qed.

Lemma fold_plain (allow : bool) (l res : list string) :
  Forall (fun w => w = "" \/ plain w = true) l ->
  fold_left (Path.norm_step allow) l res
  = (rev (filter (fun w => negb (w =? "")) l) ++ res)%list.
Proof.
  revert res. induction l as [|w l IH]; intros res Hall; [reflexivity|].
  inversion Hall as [|w' l' Hw Hl]; subst. simpl.
  destruct Hw as [-> | Hw].
  - simpl. apply IH, Hl.
  - rewrite (norm_step_plain allow res w Hw), (IH _ Hl).
    assert (Hne : (w =? "") = false).
    { unfold plain in Hw. apply negb_true_iff in Hw.
      apply orb_false_iff in Hw. destruct Hw as [Hw _].
      apply orb_false_iff in Hw. apply Hw. }
    rewrite Hne. simpl. rewrite <- app_assoc. reflexivity.
Qed.

Lemma stacked_parents (r : list string) :
  forallb (fun w => w =? "..") r = true -> stacked true r = true.
Proof.
  induction r as [|x r IH]; simpl; [reflexivity|].
  intros H. apply andb_true_iff in H. destruct H as [Hx Hr].
  rewrite Hx. exact Hr.
Qed.

Lemma stacked_tail (allow : bool) (x : string) (r : list string) :
  stacked allow (x :: r) = true -> stacked allow r = true.
Proof.
  simpl. destruct (x =? "..").
  - intros H. apply andb_true_iff in H. destruct H as [Ha Hr].
    subst allow. apply stacked_parents, Hr.
  - intros H. apply andb_true_iff in H. apply H.
Qed.

Lemma stacked_step (allow : bool) (res : list string) (w : string) :
  stacked allow res = true ->
  stacked allow (Path.norm_step allow res w) = true.
Proof.
  intros H. unfold Path.norm_step.
  destruct ((w =? "") || (w =? ".")) eqn:Hskip; [exact H|].
  destruct (w =? "..") eqn:Hdd.
  - destruct res as [|top rest].
    + destruct allow; reflexivity.
    + destruct (top =? "..") eqn:Htop.
      * destruct allow; [|exact H].
        simpl. simpl in H. rewrite Htop in H. simpl in H.
        rewrite Htop. exact H.
      * apply (stacked_tail allow top rest H).
  - simpl. rewrite Hdd. unfold plain. rewrite Hskip, Hdd. exact H.
Qed.

Lemma stacked_fold (allow : bool) (l res : list string) :
  stacked allow res = true ->
  stacked allow (fold_left (Path.norm_step allow) l res) = true.
Proof.
  revert res. induction l as [|w l IH]; intros res H; [exact H|].
  simpl. apply IH, stacked_step, H.
Qed.

Lemma stacked_plain_on_top (allow : bool) (top res : list string) :
  forallb plain top = true ->
  stacked allow res = true ->
  stacked allow (top ++ res) = true.
Proof.
  induction top as [|x top IH]; simpl; intros Ht Hr; [exact Hr|].
  apply andb_true_iff in Ht. destruct Ht as [Hx Ht].
  assert (Hdd : (x =? "..") = false).
  { unfold plain in Hx. apply negb_true_iff in Hx.
    apply orb_false_iff in Hx. apply Hx. }
  rewrite Hdd, Hx. apply IH; assumption.
Qed.

Lemma stacked_absolute (res : list string) :
  stacked false res = true -> forallb plain res = true.
Proof.
  induction res as [|x r IH]; simpl; [reflexivity|].
  destruct (x =? ".."); [discriminate|].
  intros H. apply andb_true_iff in H. destruct H as [Hx Hr].
  rewrite Hx. apply IH, Hr.
Qed.

(** Normalizing a normalized list of segments changes nothing. *)
Lemma fold_stacked (allow : bool) (res : list string) :
  stacked allow res = true ->
  fold_left (Path.norm_step allow) (rev res) [] = res.
Proof.
  induction res as [|x r IH]; intros H; [reflexivity|].
  simpl. rewrite fold_left_app. simpl.
  rewrite (IH (stacked_tail allow x r H)).
  simpl in H. destruct (x =? "..") eqn:Hdd.
  - apply String.eqb_eq in Hdd. subst x.
    apply andb_true_iff in H. destruct H as [-> Hr].
    unfold Path.norm_step. simpl.
    destruct r as [|top rest]; [reflexivity|].
    simpl in Hr. apply andb_true_iff in Hr. destruct Hr as [-> _].
    reflexivity.
  - apply andb_true_iff in H. destruct H as [Hx _].
    apply norm_step_plain, Hx.
Qed.

Lemma stacked_elements (allow : bool) (res : list string) :
  stacked allow res = true ->
  Forall (fun w => w = ".." \/ plain w = true) res.
Proof.
  induction res as [|x r IH]; intros H; [constructor|].
  constructor; [|apply IH, (stacked_tail allow x r H)].
  simpl in H. destruct (x =? "..") eqn:Hdd.
  - left. apply String.eqb_eq, Hdd.
  - right. apply andb_true_iff in H. apply H.
Qed.

Lemma plain_not_empty (w : string) :
  w = ".." \/ plain w = true -> w <> "".
Proof.
  intros [-> | H]; [discriminate|].
  intros ->. discriminate H.
Qed.

Lemma free_fold (allow : bool) (l res : list string) :
  Forall (fun w => free w = true) l ->
  Forall (fun w => free w = true) res ->
  Forall (fun w => free w = true) (fold_left (Path.norm_step allow) l res).
Proof.
  revert res. induction l as [|w l IH]; intros res Hl Hres; [exact Hres|].
  inversion Hl as [|w' l' Hw Hl']; subst. simpl. apply IH; [exact Hl'|].
  unfold Path.norm_step.
  destruct ((w =? "") || (w =? ".")); [exact Hres|].
  destruct (w =? "..").
  - destruct res as [|top rest];
      [destruct allow; repeat constructor|].
    inversion Hres as [|t r Ht Hr]; subst.
    destruct (top =? ".."); [destruct allow|]; try assumption.
    constructor; [reflexivity | exact Hres].
  - constructor; assumption.
Qed.

Lemma isAbsolute_app (a b : string) :
  a <> "" -> Path.isAbsolute (a ++ b) = Path.isAbsolute a.
Proof. destruct a; [contradiction | reflexivity]. Qed.

Lemma free_relative (w : string) : free w = true -> Path.isAbsolute w = false.
Proof.
  destruct w as [|a r]; [reflexivity|]. simpl.
  unfold Path.isAbsolute. simpl.
  destruct (Ascii.eqb a Path.slash); [discriminate | reflexivity].
Qed.

Lemma join_first (x : string) (r : list string) :
  x <> "" -> free x = true ->
  Js.join "/" (x :: r) <> ""
  /\ Path.isAbsolute (Js.join "/" (x :: r)) = false.
Proof.
  intros Hx Hf. destruct r as [|y r].
  - simpl. split; [exact Hx | apply free_relative, Hf].
  - rewrite join_cons. rewrite isAbsolute_app by exact Hx.
    split; [|apply free_relative, Hf].
    destruct x; [contradiction | discriminate].
Qed.

Lemma app_not_empty (a b : string) : a <> "" -> a ++ b <> "".
Proof. destruct a; [contradiction | discriminate]. Qed.

Lemma fold_skip_last (allow : bool) (l : list string) :
  fold_left (Path.norm_step allow) (l ++ [""]) []
  = fold_left (Path.norm_step allow) l [].
Proof. rewrite fold_left_app. reflexivity. Qed.

(** Normalizing keeps a path absolute or relative, and keeps its
    segments. *)
Lemma segments_normalize (p : string) :
  p <> "" ->
  Path.isAbsolute (Path.normalize p) = Path.isAbsolute p
  /\ segments (Path.normalize p) = segments p.
Proof.
  intros Hp. unfold Path.normalize.
  destruct (p =? "") eqn:He; [apply String.eqb_eq in He; contradiction|].
  fold sp.
  set (allow := negb (Path.isAbsolute p)).
  assert (Hst : stacked allow (fold_left (Path.norm_step allow) (sp p) [])
                = true) by (apply stacked_fold; reflexivity).
  assert (Hfr : Forall (fun w => free w = true)
                       (fold_left (Path.norm_step allow) (sp p) []))
    by (apply free_fold; [apply split_all_free | constructor]).
  assert (Hseg : segments p
                 = rev (fold_left (Path.norm_step allow) (sp p) []))
    by reflexivity.
  unfold Path.normalizeSegments. fold allow.
  set (S := fold_left (Path.norm_step allow) (sp p) []) in *.
  rewrite Hseg.
  destruct (rev S) as [|x r] eqn:HN.
  - (* nothing is left: the root, or the current directory *)
    simpl. unfold allow.
    destruct (Path.isAbsolute p); [split; reflexivity|].
    destruct (Js.is_char Path.slash (Js.last_char p)); split; reflexivity.
  - assert (Hx : x <> "" /\ free x = true).
    { assert (Hin : In x S) by (apply in_rev; rewrite HN; left; reflexivity).
      split.
      - apply plain_not_empty.
        apply (proj1 (Forall_forall _ _) (stacked_elements allow S Hst) x Hin).
      - apply (proj1 (Forall_forall _ _) Hfr x Hin). }
    destruct Hx as [Hx Hxf].
    destruct (join_first x r Hx Hxf) as [Hj Hrel].
    assert (HjE : (Js.join "/" (x :: r) =? "") = false)
      by (apply String.eqb_neq, Hj).
    rewrite HjE.
    assert (HfN : Forall (fun w => free w = true) (x :: r)).
    { rewrite <- HN. apply Forall_rev, Hfr. }
    assert (Hsplit : sp (Js.join "/" (x :: r)) = x :: r)
      by (apply split_join; [discriminate | exact HfN]).
    assert (Hidem : fold_left (Path.norm_step allow) (x :: r) [] = S).
    { rewrite <- HN. apply fold_stacked, Hst. }
    assert (Hidem' : fold_left (Path.norm_step allow) ((x :: r) ++ [""]) []
                     = S) by (rewrite fold_skip_last; exact Hidem).
    assert (Hsplit' : sp (Js.join "/" (x :: r) ++ "/")
                      = ((x :: r) ++ [""])%list).
    { change (Js.join "/" (x :: r) ++ "/")
        with (Js.join "/" (x :: r) ++ String Path.slash "").
      rewrite split_app, Hsplit. reflexivity. }
    unfold segments. fold sp. unfold Path.normalizeSegments.
    destruct (Path.isAbsolute p) eqn:Habs;
      destruct (Js.is_char Path.slash (Js.last_char p)).
    + (* absolute, with a trailing separator *)
      split; [reflexivity|].
      change (sp ("/" ++ (Js.join "/" (x :: r) ++ "/")))
        with ("" :: sp (Js.join "/" (x :: r) ++ "/")).
      rewrite Hsplit'.
      change (Path.isAbsolute ("/" ++ (Js.join "/" (x :: r) ++ "/")))
        with true.
      change (fold_left (Path.norm_step (negb true))
                ("" :: (x :: r) ++ [""]) [])
        with (fold_left (Path.norm_step allow) ((x :: r) ++ [""]) []).
      rewrite Hidem'. exact HN.
    + split; [reflexivity|].
      change (sp ("/" ++ Js.join "/" (x :: r)))
        with ("" :: sp (Js.join "/" (x :: r))).
      rewrite Hsplit.
      change (Path.isAbsolute ("/" ++ Js.join "/" (x :: r))) with true.
      change (fold_left (Path.norm_step (negb true)) ("" :: x :: r) [])
        with (fold_left (Path.norm_step allow) (x :: r) []).
      rewrite Hidem. exact HN.
    + (* relative, with a trailing separator *)
      rewrite isAbsolute_app by exact Hj. rewrite Hrel.
      split; [reflexivity|].
      rewrite Hsplit'. fold allow. rewrite Hidem'. exact HN.
    + rewrite Hrel. split; [reflexivity|].
      rewrite Hsplit. fold allow. rewrite Hidem. exact HN.
Qed.

Lemma absolute_not_empty (p : string) :
  Path.isAbsolute p = true -> p <> "".
Proof. intros H ->. discriminate H. Qed.

(** The segments of a normalized absolute path are plain. *)
Lemma normalize_absolute (p : string) :
  Path.isAbsolute p = true ->
  Path.isAbsolute (Path.normalize p) = true
  /\ Forall (fun w => w = "" \/ plain w = true) (sp (Path.normalize p)).
Proof.
  intros Habs.
  assert (Hp : p <> "") by (apply absolute_not_empty, Habs).
  split; [rewrite (proj1 (segments_normalize p Hp)); exact Habs|].
  unfold Path.normalize.
  destruct (p =? "") eqn:He; [apply String.eqb_eq in He; contradiction|].
  rewrite Habs. fold sp. unfold Path.normalizeSegments.
  change (negb true) with false.
  assert (Hst : stacked false (fold_left (Path.norm_step false) (sp p) [])
                = true) by (apply stacked_fold; reflexivity).
  assert (Hfr : Forall (fun w => free w = true)
                       (fold_left (Path.norm_step false) (sp p) []))
    by (apply free_fold; [apply split_all_free | constructor]).
  set (S := fold_left (Path.norm_step false) (sp p) []) in *.
  assert (Hpl : Forall (fun w => w = "" \/ plain w = true) (rev S)).
  { apply Forall_rev. apply Forall_forall. intros w Hin. right.
    pose proof (stacked_absolute S Hst) as Hall.
    rewrite forallb_forall in Hall. apply Hall, Hin. }
  destruct (rev S) as [|x r] eqn:HN.
  - simpl. repeat constructor.
  - assert (HfN : Forall (fun w => free w = true) (x :: r)).
    { rewrite <- HN. apply Forall_rev, Hfr. }
    assert (Hx : x <> "").
    { inversion Hpl as [|x' r' [Hx | Hx] _]; subst.
      - apply plain_not_empty. left. 
        exfalso. 
        assert (Hin : In "" S)
          by (apply in_rev; rewrite HN; left; reflexivity).
        pose proof (stacked_absolute S Hst) as Hall.
        rewrite forallb_forall in Hall. discriminate (Hall _ Hin).
      - apply plain_not_empty. right. exact Hx. }
    inversion HfN as [|x' r' Hxf _]; subst.
    destruct (join_first x r Hx Hxf) as [Hj _].
    assert (HjE : (Js.join "/" (x :: r) =? "") = false)
      by (apply String.eqb_neq, Hj).
    rewrite HjE.
    assert (Hsplit : sp (Js.join "/" (x :: r)) = x :: r)
      by (apply split_join; [discriminate | exact HfN]).
    destruct (Js.is_char Path.slash (Js.last_char p)).
    + change (sp ("/" ++ (Js.join "/" (x :: r) ++ "/")))
        with ("" :: sp (Js.join "/" (x :: r) ++ String Path.slash "")).
      rewrite split_app, Hsplit.
      constructor; [left; reflexivity|].
      apply Forall_app. split; [exact Hpl|].
      constructor; [left; reflexivity | constructor].
    + change (sp ("/" ++ Js.join "/" (x :: r)))
        with ("" :: sp (Js.join "/" (x :: r))).
      rewrite Hsplit. constructor; [left; reflexivity | exact Hpl].
Qed.

(** The pattern finds nothing to strip at the head of an absolute path. *)
Lemma strip_parents_absolute (p : string) :
  Path.isAbsolute p = true -> strip_parents p = p.
Proof.
  destruct p as [|a [|b [|c r]]]; try reflexivity.
  unfold Path.isAbsolute. simpl. intros H.
  apply Ascii.eqb_eq in H. subst a. reflexivity.
Qed.

Lemma below_app (xs rest : list string) :
  forallb (fun w => negb (w =? "..")) rest = true ->
  below xs (xs ++ rest) = true.
Proof.
  intros H. induction xs as [|x xs IH]; simpl.
  - destruct rest; exact H.
  - rewrite String.eqb_refl. exact IH.
Qed.

Lemma plain_does_not_climb (l : list string) :
  Forall (fun w => w = "" \/ plain w = true) l ->
  forallb (fun w => negb (w =? ".."))
          (filter (fun w => negb (w =? "")) l) = true.
Proof.
  induction l as [|w l IH]; intros H; [reflexivity|].
  inversion H as [|w' l' Hw Hl]; subst. simpl.
  destruct Hw as [-> | Hw]; [apply IH, Hl|].
  assert (Hne : (w =? "") = false /\ (w =? "..") = false).
  { unfold plain in Hw. apply negb_true_iff in Hw.
    apply orb_false_iff in Hw. destruct Hw as [Hw Hdd].
    apply orb_false_iff in Hw. split; [apply Hw | exact Hdd]. }
  destruct Hne as [-> Hdd]. simpl. rewrite Hdd. apply IH, Hl.
Qed.

(** For a request path that starts with a separator, and an output
    directory that is set, the resolved path is the output directory or lies
    below it, however many [..] the request holds. *)
Lemma origin_form_stays_inside (st : settings_t) (pathname : string) :
  outdir st <> "" ->
  Path.isAbsolute pathname = true ->
  inside (outdir st) (resolved st pathname) = true.
Proof.
  intros Ho Habs.
  destruct (normalize_absolute pathname Habs) as [Hn Hpl].
  unfold resolved, sanitizePath.
  rewrite (strip_parents_absolute _ Hn).
  set (n := Path.normalize pathname) in *.
  assert (Hne : n <> "") by (apply absolute_not_empty, Hn).
  unfold Path.join. simpl.
  destruct (outdir st =? "") eqn:Hoe;
    [apply String.eqb_eq in Hoe; contradiction|].
  destruct (n =? "") eqn:Hnn; [apply String.eqb_eq in Hnn; contradiction|].
  simpl.
  set (o := outdir st) in *.
  assert (HX : o ++ String "/" n <> "") by (apply app_not_empty, Ho).
  destruct (segments_normalize _ HX) as [Ha Hs].
  unfold inside. rewrite Ha, Hs.
  rewrite (isAbsolute_app o _ Ho). rewrite Bool.eqb_reflx. simpl.
  assert (Hseg : segments (o ++ String "/" n)
                 = (segments o
                    ++ filter (fun w => negb (w =? "")) (sp n))%list).
  { unfold segments, Path.normalizeSegments. fold sp.
    rewrite (isAbsolute_app o _ Ho).
    change (String "/" n) with (String Path.slash n).
    rewrite split_app, fold_left_app.
    rewrite (fold_plain _ _ _ Hpl).
    rewrite rev_app_distr, rev_involutive. reflexivity. }
  rewrite Hseg. apply below_app, plain_does_not_climb, Hpl.
Qed.

End OriginForm.

(** * Further properties of the process *)

(** ** What a watch event can do *)

Lemma on_all_cases (E : env) (s : state) (event targetPath : string) :
  on_all E event targetPath s = s
  \/ on_all E event targetPath s = process_exit 0 s
  \/ exists k, reload_cont k = true
               /\ on_all E event targetPath s = build k s.
Proof.
  unfold on_all, on_extension.
  repeat match goal with
         | |- context [if ?c then _ else _] => destruct c
         end;
    first [ left; reflexivity
          | right; left; reflexivity
          | right; right; eexists; split; [|reflexivity]; reflexivity ].
Qed.

Lemma broadcast_actions (send : handle -> bool) (msg : string)
      (cl : list handle) :
  Forall (fun a => a = UnhandledRejection \/ exists ws, a = Send ws msg)
         (broadcast send msg cl).
Proof.
  unfold broadcast. induction cl as [|h cl IH]; simpl; [constructor|].
  destruct (send h).
  - destruct (forEach_send send msg cl) as [acts ok]. simpl.
    constructor; [right; exists h; reflexivity | exact IH].
  - simpl. constructor; [right; exists h; reflexivity|].
    constructor; [left; reflexivity | constructor].
Qed.

Lemma count_app (f : action -> bool) (t u : list action) :
  count f (t ++ u) = count f t + count f u.
Proof. unfold count. rewrite filter_app, length_app. reflexivity. Qed.

Lemma count_broadcast (f : action -> bool) (send : handle -> bool)
      (msg : string) (cl : list handle) :
  f UnhandledRejection = false ->
  (forall ws, f (Send ws msg) = false) ->
  count f (broadcast send msg cl) = 0.
Proof.
  intros Hu Hs. unfold count.
  pose proof (broadcast_actions send msg cl) as H.
  induction H as [|a t Ha _ IH]; [reflexivity|].
  simpl. destruct Ha as [-> | [ws ->]].
  - rewrite Hu. exact IH.
  - rewrite Hs. exact IH.
Qed.

(** The trace a settling build appends. *)
Lemma settle_trace (E : env) (b : nat) (ok : bool) (s : state) :
  settle E b ok s = s
  \/ exists k,
       In (b, k) (running s)
       /\ trace (settle E b ok s)
          = (trace s ++ BundlerEnd b ok ::
               match k with
               | KReturn => []
               | KBroadcast msg => broadcast (ws_send E) msg (clients s)
               end)%list.
Proof.
  unfold settle.
  destruct (find (named b) (running s)) as [[b' k]|] eqn:Hf;
    [|left; reflexivity].
  right. exists k.
  apply find_some in Hf. destruct Hf as [Hin Hb].
  unfold named in Hb. simpl in Hb. apply Nat.eqb_eq in Hb. subst b'.
  split; [exact Hin|].
  destruct k as [|msg]; simpl; [reflexivity|].
  rewrite <- app_assoc. reflexivity.
Qed.

(** ** The registry *)

Lemma step_clients_exact (E : env) (s : state) (i : input) :
  alive s = true ->
  clients (step E s i) = (clients s ++ connections [i])%list.
Proof.
  intros Ha. unfold step. rewrite Ha.
  destruct i as [|event targetPath|b ok|ws|ws|ws]; simpl;
    try (symmetry; apply app_nil_r).
  - destruct (on_all_cases E s event targetPath)
      as [-> | [-> | [k [_ ->]]]]; symmetry; apply app_nil_r.
  - rewrite app_nil_r. apply settle_shape.
  - reflexivity.
Qed.

(** X1: as long as the process runs, the registry is the list of the
    connections accepted so far, in the order they came; no event removes
    or reorders an entry, and a socket that connects twice is listed
    twice. *)
Theorem registry_lists_accepted_connections (E : env) (s : state)
        (ins : list input) :
  alive (run E s ins) = true ->
  clients (run E s ins) = (clients s ++ connections ins)%list.
Proof.
  revert s. induction ins as [|i ins IH]; intros s Ha.
  - simpl. symmetry. apply app_nil_r.
  - rewrite run_cons in *.
    assert (Ha1 : alive (step E s i) = true) by (apply (run_alive E _ ins), Ha).
    assert (Ha0 : alive s = true) by (apply (step_alive E s i), Ha1).
    rewrite (IH _ Ha), (step_clients_exact E s i Ha0).
    rewrite <- app_assoc. unfold connections. simpl.
    rewrite app_nil_r. reflexivity.
Qed.

Lemma registry_witness :
  clients (run project initial
             [Connection 3; Startup; Close 3; Connection 9;
              Settled 0 true; Connection 3])
  = [3; 9; 3].
Proof.
  apply (registry_lists_accepted_connections project initial).
  reflexivity.
Defined.

(** ** The messages on the wire *)

Lemma forallb_app_true {A : Type} (f : A -> bool) (xs ys : list A) :
  forallb f xs = true -> forallb f ys = true -> forallb f (xs ++ ys) = true.
Proof. intros Hx Hy. rewrite forallb_app, Hx, Hy. reflexivity. Qed.

Lemma reload_broadcast (send : handle -> bool) (msg : string)
      (cl : list handle) :
  reload_cont (KBroadcast msg) = true ->
  forallb reload_message (broadcast send msg cl) = true.
Proof.
  intros Hm. apply forallb_forall. intros a Hin.
  pose proof (broadcast_actions send msg cl) as H.
  rewrite Forall_forall in H. destruct (H a Hin) as [-> | [ws ->]];
    [reflexivity | exact Hm].
Qed.

Lemma reload_step (E : env) (s : state) (i : input) :
  forallb reload_message (trace s) = true ->
  forallb (fun r => reload_cont (snd r)) (running s) = true ->
  forallb reload_message (trace (step E s i)) = true
  /\ forallb (fun r => reload_cont (snd r)) (running (step E s i)) = true.
Proof.
  intros Ht Hr.
  assert (Hbuild : forall k, reload_cont k = true ->
            forallb reload_message (trace (build k s)) = true
            /\ forallb (fun r => reload_cont (snd r)) (running (build k s))
               = true).
  { intros k Hk. unfold build; simpl. split.
    - apply forallb_app_true; [exact Ht | reflexivity].
    - apply forallb_app_true; [exact Hr | simpl; rewrite Hk; reflexivity]. }
  unfold step. destruct (alive s); [|split; assumption].
  destruct i as [|event targetPath|b ok|ws|ws|ws]; try (split; assumption).
  - apply Hbuild. reflexivity.
  - destruct (on_all_cases E s event targetPath)
      as [-> | [-> | [k [Hk ->]]]].
    + split; assumption.
    + split; [|exact Hr]. simpl.
      apply forallb_app_true; [exact Ht | reflexivity].
    + apply Hbuild, Hk.
  - split.
    + destruct (settle_trace E b ok s) as [-> | [k [Hin ->]]]; [exact Ht|].
      apply forallb_app_true; [exact Ht|]. simpl.
      rewrite forallb_forall in Hr. specialize (Hr _ Hin). simpl in Hr.
      destruct k as [|msg]; [reflexivity|].
      apply reload_broadcast, Hr.
    + rewrite settle_running. apply forallb_forall. intros r Hin.
      apply filter_In in Hin. rewrite forallb_forall in Hr.
      apply Hr, Hin.
  - split; [|exact Hr]. simpl.
    apply forallb_app_true; [exact Ht | reflexivity].
Qed.

Lemma reload_run (E : env) (s : state) (ins : list input) :
  forallb reload_message (trace s) = true ->
  forallb (fun r => reload_cont (snd r)) (running s) = true ->
  forallb reload_message (trace (run E s ins)) = true.
Proof.
  revert s. induction ins as [|i ins IH]; intros s Ht Hr; [exact Ht|].
  rewrite run_cons. destruct (reload_step E s i Ht Hr) as [Ht' Hr'].
  apply IH; assumption.
Qed.

(** X2: whatever happens, the only messages the process ever hands to a
    socket are [reload-css] and [reload-js]. *)
Theorem only_reload_messages_are_sent (E : env) (ins : list input)
        (ws : handle) (msg : string) :
  In (Send ws msg) (trace (run E initial ins)) ->
  msg = "reload-css" \/ msg = "reload-js".
Proof.
  intros Hin.
  pose proof (reload_run E initial ins eq_refl eq_refl) as H.
  rewrite forallb_forall in H. specialize (H _ Hin). simpl in H.
  apply orb_true_iff in H.
  destruct H as [H | H]; apply String.eqb_eq in H; [left | right]; exact H.
Qed.

Lemma only_reload_messages_witness :
  In (Send 2 "reload-css")
     (trace (run project initial
               [Connection 2; Watch "change" "/proj/a.css"; Settled 0 false]))
  /\ ("reload-css" = "reload-css" \/ "reload-css" = "reload-js").
Proof.
  split; [right; right; left; reflexivity|].
  apply (only_reload_messages_are_sent project
           [Connection 2; Watch "change" "/proj/a.css"; Settled 0 false]
           2 "reload-css").
  right. right. left. reflexivity.
Defined.

(** X3: a socket is sent something only at the moment a bundler invocation
    settles: the start-up build, a watch event, a connection and a
    disconnection send nothing themselves. *)
Theorem nothing_is_sent_before_a_build_settles (E : env) (s : state)
        (i : input) :
  (forall b ok, i <> Settled b ok) ->
  filter is_send (trace (step E s i)) = filter is_send (trace s).
Proof.
  intros Hi. unfold step. destruct (alive s); [|reflexivity].
  destruct i as [|event targetPath|b ok|ws|ws|ws]; try reflexivity.
  - unfold build; simpl. rewrite filter_app. simpl. apply app_nil_r.
  - destruct (on_all_cases E s event targetPath)
      as [-> | [-> | [k [_ ->]]]]; [reflexivity| |];
      simpl; rewrite filter_app; simpl; apply app_nil_r.
  - exfalso. apply (Hi b ok). reflexivity.
  - simpl. rewrite filter_app. simpl. apply app_nil_r.
Qed.

Lemma nothing_is_sent_witness :
  filter is_send
    (trace (step project (run project initial [Connection 1])
                 (Watch "change" "/proj/src/app.ts")))
  = filter is_send (trace (run project initial [Connection 1])).
Proof.
  apply (nothing_is_sent_before_a_build_settles project).
  intros b ok H. discriminate H.
Defined.

(** ** The number in the banner *)

Lemma count_cons (f : action -> bool) (a : action) (t : list action) :
  count f (a :: t) = (if f a then 1 else 0) + count f t.
Proof. unfold count. simpl. destruct (f a); reflexivity. Qed.

Lemma count_snoc (f : action -> bool) (t : list action) (a : action) :
  count f (t ++ [a]) = count f t + (if f a then 1 else 0).
Proof.
  rewrite count_app, count_cons. unfold count. simpl.
  destruct (f a); lia.
Qed.

Lemma count_resumed (E : env) (f : action -> bool) (k : cont) (s : state) :
  f UnhandledRejection = false ->
  (forall ws m, f (Send ws m) = false) ->
  count f (match k with
           | KReturn => []
           | KBroadcast msg => broadcast (ws_send E) msg (clients s)
           end) = 0.
Proof.
  intros Hu Hsd. destruct k as [|msg]; [reflexivity|].
  apply count_broadcast; [exact Hu | intros w; apply Hsd].
Qed.

Lemma js_incr_min (k : Z) :
  (0 <= k)%Z ->
  js_incr (Z.min (2 ^ 53) (1 + k)) = Z.min (2 ^ 53) (1 + (k + 1)).
Proof.
  intros Hk. unfold js_incr.
  change (2 ^ 53)%Z with 9007199254740992%Z.
  destruct (Z.ltb_spec (Z.min 9007199254740992 (1 + k)) 9007199254740992);
    lia.
Qed.

Lemma banner_step (E : env) (s : state) (i : input) :
  buildcnt s = Z.min (2 ^ 53) (1 + Z.of_nat (count is_start (trace s))) ->
  buildcnt (step E s i)
  = Z.min (2 ^ 53) (1 + Z.of_nat (count is_start (trace (step E s i)))).
Proof.
  intros H.
  assert (Hbuild : forall k,
            buildcnt (build k s)
            = Z.min (2 ^ 53)
                    (1 + Z.of_nat (count is_start (trace (build k s))))).
  { intros k. unfold build; simpl. rewrite count_snoc, H. simpl.
    rewrite Nat2Z.inj_add. apply js_incr_min. lia. }
  unfold step. destruct (alive s); [|exact H].
  destruct i as [|event targetPath|b ok|ws|ws|ws]; try exact H.
  - apply Hbuild.
  - destruct (on_all_cases E s event targetPath)
      as [-> | [-> | [k [_ ->]]]]; [exact H| |apply Hbuild].
    simpl. rewrite count_snoc. simpl. rewrite Nat.add_0_r. exact H.
  - destruct (settle_shape E b ok s) as (Hcnt & _). rewrite Hcnt.
    destruct (settle_trace E b ok s) as [-> | [k [_ ->]]]; [exact H|].
    rewrite count_app, count_cons.
    rewrite (count_resumed E is_start k s eq_refl (fun _ _ => eq_refl)).
    simpl. rewrite Nat.add_0_r. exact H.
  - simpl. rewrite count_snoc. simpl. rewrite Nat.add_0_r. exact H.
Qed.

(** X4: in every state the process can reach, the build counter is one more
    than the number of times the bundler has been invoked: each call of
    [build()] invokes it once, and nothing else touches the counter.
    (A JavaScript number stops counting at 2^53.) *)
Theorem banner_counts_bundler_invocations (E : env) (ins : list input) :
  let s := run E initial ins in
  buildcnt s = Z.min (2 ^ 53) (1 + Z.of_nat (count is_start (trace s))).
Proof.
  assert (H : forall s,
            buildcnt s
            = Z.min (2 ^ 53) (1 + Z.of_nat (count is_start (trace s))) ->
            buildcnt (run E s ins)
            = Z.min (2 ^ 53)
                    (1 + Z.of_nat (count is_start (trace (run E s ins))))).
  { induction ins as [|i ins' IH]; intros s Hs; [exact Hs|].
    rewrite run_cons. apply IH, banner_step, Hs. }
  apply H. reflexivity.
Qed.

(** ** More on paths *)

Section Paths.

Lemma prefix_empty (s : string) : String.prefix "" s = true.
Proof. destruct s; reflexivity. Qed.

Lemma append_assoc (a b c : string) : (a ++ b) ++ c = a ++ (b ++ c).
Proof. induction a as [|x a IH]; simpl; [reflexivity | rewrite IH; reflexivity]. Qed.

Lemma append_empty (a : string) : a ++ "" = a.
Proof. induction a as [|x a IH]; simpl; [reflexivity | rewrite IH; reflexivity]. Qed.

Lemma startsWith_app (a b : string) : Js.startsWith (a ++ b) a = true.
Proof.
  unfold Js.startsWith. induction a as [|x a IH]; simpl;
    [apply prefix_empty|].
  destruct (ascii_dec x x) as [_ | Hne]; [exact IH | contradiction].
Qed.

Lemma substring_app (a b : string) : Js.substring (String.length a) (a ++ b) = b.
Proof.
  induction a as [|x a IH]; simpl; [destruct b; reflexivity | exact IH].
Qed.

(** A prefix without a separator is decided by the first segment. *)
Lemma startsWith_head (q x w : string) :
  free q = true ->
  w = "" \/ (exists w', w = String Path.slash w') ->
  Js.startsWith (x ++ w) q = Js.startsWith x q.
Proof.
  unfold Js.startsWith. intros Hq Hw. revert x.
  induction q as [|c q IH]; intros x; [rewrite !prefix_empty; reflexivity|].
  simpl in Hq. apply andb_true_iff in Hq. destruct Hq as [Hc Hq].
  destruct x as [|y x]; simpl.
  - destruct Hw as [-> | [w' ->]]; simpl; [reflexivity|].
    destruct (ascii_dec c Path.slash) as [-> | _];
      [discriminate Hc | reflexivity].
  - destruct (ascii_dec c y); [apply IH, Hq | reflexivity].
Qed.

Lemma last_char_app (a b : string) :
  b <> "" -> Js.last_char (a ++ b) = Js.last_char b.
Proof.
  intros Hb. induction a as [|x a IH]; [reflexivity|].
  simpl. rewrite IH.
  destruct (a ++ b) eqn:Hab; [|reflexivity].
  destruct a; [simpl in Hab; contradiction | discriminate Hab].
Qed.

Lemma free_no_trailing (w : string) :
  free w = true -> Js.is_char Path.slash (Js.last_char w) = false.
Proof.
  induction w as [|c w IH]; [reflexivity|]. simpl. intros H.
  apply andb_true_iff in H. destruct H as [Hc Hw].
  destruct w as [|d w]; [|apply IH, Hw].
  simpl. apply negb_true_iff in Hc. exact Hc.
Qed.

(** Segments other than [..] are dropped or kept, never used to climb. *)
Lemma fold_harmless (allow : bool) (l res : list string) :
  forallb (fun w => negb (w =? "..")) l = true ->
  fold_left (Path.norm_step allow) l res = (rev (filter plain l) ++ res)%list.
Proof.
  revert res. induction l as [|w l IH]; intros res H; [reflexivity|].
  simpl in H. apply andb_true_iff in H. destruct H as [Hw Hl].
  apply negb_true_iff in Hw. simpl.
  unfold plain at 1. rewrite Hw, orb_false_r.
  destruct ((w =? "") || (w =? ".")) eqn:Hskip; simpl.
  - unfold Path.norm_step. rewrite Hskip. apply IH, Hl.
  - unfold Path.norm_step. rewrite Hskip, Hw. rewrite (IH _ Hl).
    rewrite <- app_assoc. reflexivity.
Qed.

Lemma filter_plain_no_climb (l : list string) :
  forallb (fun w => negb (w =? "..")) (filter plain l) = true.
Proof.
  apply forallb_forall. intros w Hin. apply filter_In in Hin.
  destruct Hin as [_ Hp]. unfold plain in Hp.
  apply negb_true_iff in Hp. apply orb_false_iff in Hp.
  destruct Hp as [_ ->]. reflexivity.
Qed.

(** The segments of a normalized path hold no separator and are not
    empty. *)
Lemma segments_elements (p : string) :
  Forall (fun w => free w = true /\ w <> "") (segments p).
Proof.
  unfold segments, Path.normalizeSegments.
  set (allow := negb (Path.isAbsolute p)).
  assert (Hst : stacked allow (fold_left (Path.norm_step allow) (Js.split Path.slash p) [])
                = true) by (apply stacked_fold; reflexivity).
  assert (Hfr : Forall (fun w => free w = true)
                       (fold_left (Path.norm_step allow) (Js.split Path.slash p) []))
    by (apply free_fold; [apply split_all_free | constructor]).
  apply Forall_rev. apply Forall_forall. intros w Hin. split.
  - rewrite Forall_forall in Hfr. apply Hfr, Hin.
  - apply plain_not_empty.
    pose proof (stacked_elements allow _ Hst) as He.
    rewrite Forall_forall in He. apply He, Hin.
Qed.

(** [path.normalize] written out on the segments of its argument. *)
Lemma normalize_shape (p : string) :
  p <> "" ->
  Path.normalize p
  = match segments p with
    | [] =>
        if Path.isAbsolute p then "/"
        else if Js.is_char Path.slash (Js.last_char p) then "./" else "."
    | N =>
        let body :=
          if Js.is_char Path.slash (Js.last_char p) then Js.join "/" N ++ "/"
          else Js.join "/" N in
        if Path.isAbsolute p then "/" ++ body else body
    end.
Proof.
  intros Hp. unfold Path.normalize.
  destruct (p =? "") eqn:He; [apply String.eqb_eq in He; contradiction|].
  fold (segments p).
  pose proof (segments_elements p) as Hel.
  destruct (segments p) as [|x r]; [reflexivity|].
  inversion Hel as [|x' r' [Hf Hx] _]; subst.
  destruct (join_first x r Hx Hf) as [Hj _].
  apply String.eqb_neq in Hj. rewrite Hj. reflexivity.
Qed.

Lemma normalize_not_empty (p : string) : Path.normalize p <> "".
Proof.
  destruct (String.eqb_spec p "") as [-> | Hp]; [discriminate|].
  rewrite (normalize_shape p Hp).
  pose proof (segments_elements p) as Hel.
  destruct (segments p) as [|x r].
  - destruct (Path.isAbsolute p); [discriminate|].
    destruct (Js.is_char Path.slash (Js.last_char p)); discriminate.
  - inversion Hel as [|x' r' [Hf Hx] _]; subst.
    destruct (join_first x r Hx Hf) as [Hj _]. cbv zeta.
    destruct (Path.isAbsolute p); [discriminate|].
    destruct (Js.is_char Path.slash (Js.last_char p));
      [apply app_not_empty, Hj | exact Hj].
Qed.

Lemma join_not_empty (args : list string) : Path.join args <> "".
Proof.
  unfold Path.join. destruct (filter _ args); [discriminate|].
  apply normalize_not_empty.
Qed.

(** A relative path starts, once normalized, with its first segment, and
    goes on with a separator if it goes on. *)
Lemma relative_head (p x : string) (N : list string) :
  p <> "" -> Path.isAbsolute p = false -> segments p = x :: N ->
  exists w, Path.normalize p = x ++ w
            /\ (w = "" \/ exists w', w = String Path.slash w').
Proof.
  intros Hp Habs Hseg. rewrite (normalize_shape p Hp), Hseg, Habs. cbv zeta.
  destruct N as [|y N].
  - simpl. destruct (Js.is_char Path.slash (Js.last_char p)).
    + exists "/". split; [reflexivity | right; exists ""; reflexivity].
    + exists "". split; [symmetry; apply append_empty | left; reflexivity].
  - rewrite join_cons. destruct (Js.is_char Path.slash (Js.last_char p)).
    + exists (String Path.slash (Js.join "/" (y :: N) ++ "/")).
      split; [apply append_assoc | right; eexists; reflexivity].
    + exists (String Path.slash (Js.join "/" (y :: N))).
      split; [reflexivity | right; eexists; reflexivity].
Qed.

(** *** Staying below a directory *)

Lemma below_spec (xs ys : list string) :
  below xs ys = true <->
  exists rest, ys = (xs ++ rest)%list
               /\ forallb (fun w => negb (w =? "..")) rest = true.
Proof.
  revert ys. induction xs as [|x xs IH]; intros ys; simpl.
  - split.
    + intros H. exists ys. split; [reflexivity | destruct ys; exact H].
    + intros [rest [-> H]]. destruct rest; exact H.
  - destruct ys as [|y ys].
    + split; [discriminate | intros [rest [H _]]; discriminate H].
    + split.
      * intros H. apply andb_true_iff in H. destruct H as [Hxy Hb].
        apply String.eqb_eq in Hxy. subst y.
        apply IH in Hb. destruct Hb as [rest [-> Hr]].
        exists rest. split; [reflexivity | exact Hr].
      * intros [rest [Heq Hr]]. injection Heq as -> ->.
        rewrite String.eqb_refl. apply IH. exists rest.
        split; [reflexivity | exact Hr].
Qed.

Lemma inside_trans (a b c : string) :
  inside a b = true -> inside b c = true -> inside a c = true.
Proof.
  unfold inside. intros Hab Hbc.
  apply andb_true_iff in Hab. destruct Hab as [Ha Hab].
  apply andb_true_iff in Hbc. destruct Hbc as [Hb Hbc].
  apply Bool.eqb_prop in Ha. apply Bool.eqb_prop in Hb.
  rewrite Ha, Hb, Bool.eqb_reflx. simpl.
  apply below_spec in Hab. destruct Hab as [r1 [H1 Hr1]].
  apply below_spec in Hbc. destruct Hbc as [r2 [H2 Hr2]].
  apply below_spec. exists (r1 ++ r2)%list. split.
  - rewrite H2, H1, <- app_assoc. reflexivity.
  - rewrite forallb_app, Hr1, Hr2. reflexivity.
Qed.

(** Joining a path that does not climb onto a directory stays below it. *)
Lemma join_stays_inside (o t : string) :
  o <> "" -> no_climb t = true -> inside o (Path.join [o; t]) = true.
Proof.
  intros Ho Ht. unfold Path.join. simpl.
  destruct (o =? "") eqn:Hoe; [apply String.eqb_eq in Hoe; contradiction|].
  simpl. destruct (t =? "") eqn:Hte; simpl.
  - destruct (segments_normalize o Ho) as [Ha Hs].
    unfold inside. rewrite Ha, Hs, Bool.eqb_reflx. simpl.
    apply below_spec. exists []. split; [symmetry; apply app_nil_r | reflexivity].
  - assert (HX : o ++ String "/" t <> "") by (apply app_not_empty, Ho).
    destruct (segments_normalize _ HX) as [Ha Hs].
    unfold inside. rewrite Ha, Hs.
    rewrite (isAbsolute_app o _ Ho), Bool.eqb_reflx. simpl.
    apply below_spec. exists (filter plain (Js.split Path.slash t)). split.
    + unfold segments, Path.normalizeSegments.
      rewrite (isAbsolute_app o _ Ho).
      change (String "/" t) with (String Path.slash t).
      rewrite split_app, fold_left_app.
      rewrite (fold_harmless _ _ _ Ht).
      rewrite rev_app_distr, rev_involutive. reflexivity.
    + apply filter_plain_no_climb.
Qed.

End Paths.

(** ** More on the static file server *)

(** X5: for a request path that starts with a separator and an output
    directory that is set, the file the handler reads, the resolved path
    or the [index.html] below it, lies inside the output directory. *)
Theorem file_read_stays_inside (st : settings_t) (fs : fs_api)
        (pathname : string) :
  outdir st <> "" ->
  Path.isAbsolute pathname = true ->
  inside (outdir st) (served fs (resolved st pathname)) = true.
Proof.
  intros Ho Habs.
  pose proof (origin_form_stays_inside st pathname Ho Habs) as Hin.
  unfold served. destruct (isDirectory fs (resolved st pathname)); [|exact Hin].
  apply (inside_trans _ (resolved st pathname)); [exact Hin|].
  apply join_stays_inside; [|reflexivity].
  unfold resolved. apply join_not_empty.
Qed.

Lemma file_read_witness :
  inside "./bin" (served sample_fs (resolved def_settings "/../../")) = true.
Proof.
  apply (file_read_stays_inside def_settings sample_fs "/../../").
  - discriminate.
  - reflexivity.
Defined.

Lemma filter_not_empty (l : list string) :
  Forall (fun w => free w = true /\ w <> "") l ->
  filter (fun a => negb (a =? "")) l = l.
Proof.
  induction l as [|w l IH]; intros H; [reflexivity|].
  inversion H as [|w' l' [_ Hw] Hl]; subst. simpl.
  apply String.eqb_neq in Hw. rewrite Hw. simpl. rewrite (IH Hl).
  reflexivity.
Qed.

(** The extension of the index page of any directory. *)
Lemma index_extension (p : string) :
  Path.parse_ext (Path.join [p; "index.html"]) = ".html".
Proof.
  unfold Path.parse_ext, Path.extname.
  assert (Hb : Path.basename (Path.join [p; "index.html"]) = "index.html");
    [|rewrite Hb; reflexivity].
  unfold Path.join. simpl.
  destruct (p =? "") eqn:Hpe; simpl; [reflexivity|].
  apply String.eqb_neq in Hpe.
  set (X := p ++ String "/" "index.html").
  assert (HX : X <> "") by (apply app_not_empty, Hpe).
  assert (Hseg : segments X
                 = (rev (fold_left (Path.norm_step (negb (Path.isAbsolute p)))
                                   (Js.split Path.slash p) [])
                    ++ ["index.html"])%list).
  { unfold segments, Path.normalizeSegments, X.
    rewrite (isAbsolute_app p _ Hpe).
    change (String "/" "index.html") with (String Path.slash "index.html").
    rewrite split_app, fold_left_app. reflexivity. }
  assert (Htr : Js.is_char Path.slash (Js.last_char X) = false).
  { unfold X. rewrite last_char_app by discriminate. reflexivity. }
  pose proof (segments_elements X) as Hel.
  rewrite (normalize_shape X HX), Htr.
  destruct (segments X) as [|x r] eqn:HN.
  - exfalso. symmetry in Hseg. apply app_eq_nil in Hseg.
    destruct Hseg as [_ Hnil]. discriminate Hnil.
  - cbv zeta. unfold Path.basename.
    assert (Hsplit : Js.split Path.slash (Js.join "/" (x :: r)) = x :: r).
    { apply split_join; [discriminate|].
      apply Forall_forall. intros w Hw. rewrite Forall_forall in Hel.
      apply (Hel w Hw). }
    assert (Hlast : last (x :: r) "" = "index.html").
    { rewrite Hseg. apply last_last. }
    destruct (Path.isAbsolute X).
    + change (Js.split Path.slash ("/" ++ Js.join "/" (x :: r)))
        with ("" :: Js.split Path.slash (Js.join "/" (x :: r))).
      rewrite Hsplit.
      change (filter (fun a => negb (a =? "")) ("" :: x :: r))
        with (filter (fun a => negb (a =? "")) (x :: r)).
      rewrite (filter_not_empty _ Hel). exact Hlast.
    + rewrite Hsplit, (filter_not_empty _ Hel). exact Hlast.
Qed.

(** X6: a request that resolves to a directory is answered with the bytes
    of the [index.html] directly below it, labelled [text/html], whatever
    the directory is called. *)
Theorem directory_is_served_as_html (st : settings_t) (fs : fs_api)
        (pathname data : string) :
  let p := resolved st pathname in
  existsSync fs p = true ->
  isDirectory fs p = true ->
  readFile fs (Path.join [p; "index.html"]) = ReadData data ->
  on_request st fs pathname
  = {| statusCode := 200;
       headers := [("Content-type", "text/html")];
       body := data |}.
Proof.
  intros p He Hd Hr. unfold on_request. fold p.
  rewrite He. unfold served. rewrite Hd, Hr.
  rewrite index_extension. reflexivity.
Qed.

Lemma directory_witness :
  on_request def_settings sample_fs "/"
  = {| statusCode := 200;
       headers := [("Content-type", "text/html")];
       body := "<html>app</html>" |}.
Proof.
  apply (directory_is_served_as_html def_settings sample_fs "/");
    reflexivity.
Defined.

Lemma prefix_cons (a b : ascii) (p s : string) :
  String.prefix (String a p) (String b s)
  = Ascii.eqb a b && String.prefix p s.
Proof.
  cbn [String.prefix]. destruct (ascii_dec a b) as [-> | Hne].
  - rewrite Ascii.eqb_refl. reflexivity.
  - apply Ascii.eqb_neq in Hne. rewrite Hne. reflexivity.
Qed.

Lemma prefix_exists (p s : string) :
  String.prefix p s = true -> exists r, s = p ++ r.
Proof.
  revert s. induction p as [|a p IH]; intros s H.
  - exists s. reflexivity.
  - destruct s as [|b s]; [discriminate H|].
    rewrite prefix_cons in H. apply andb_true_iff in H.
    destruct H as [Hab Hp]. apply Ascii.eqb_eq in Hab. subst b.
    destruct (IH s Hp) as [r ->]. exists r. reflexivity.
Qed.

Lemma strip_parents_bounded (n : nat) :
  forall s, String.length s <= n -> leading_parent (strip_parents s) = false.
Proof.
  induction n as [|n IH]; intros s Hlen.
  - destruct s; [reflexivity | simpl in Hlen; lia].
  - destruct s as [|a [|b [|c r]]]; try reflexivity.
    cbn [strip_parents].
    destruct (Ascii.eqb a "." && Ascii.eqb b "."
              && (Ascii.eqb c "/" || Ascii.eqb c "\")) eqn:Hc.
    + apply IH. simpl in Hlen. lia.
    + exact Hc.
Qed.

Lemma leading_parent_complete (t : string) :
  leading_parent t = false ->
  Js.startsWith t "../" = false /\ Js.startsWith t "..\" = false.
Proof.
  unfold Js.startsWith.
  destruct t as [|a [|b [|c r]]]; intros H.
  - split; reflexivity.
  - rewrite !prefix_cons. split; apply andb_false_r.
  - rewrite !prefix_cons. split; rewrite andb_false_r; apply andb_false_r.
  - rewrite !prefix_cons, !prefix_empty, !andb_true_r.
    cbn [leading_parent] in H.
    rewrite (Ascii.eqb_sym "." a), (Ascii.eqb_sym "." b),
            (Ascii.eqb_sym "/" c), (Ascii.eqb_sym "\" c).
    destruct (Ascii.eqb a "."); [|split; reflexivity].
    destruct (Ascii.eqb b "."); [|split; reflexivity].
    simpl in H. apply orb_false_iff in H. destruct H as [-> ->].
    split; reflexivity.
Qed.

(** X7: the path that is joined onto the output directory never starts
    with [../] or [..\], whatever the request was. *)
Theorem sanitized_path_has_no_leading_parent (pathname : string) :
  Js.startsWith (sanitizePath pathname) "../" = false
  /\ Js.startsWith (sanitizePath pathname) "..\" = false.
Proof.
  apply leading_parent_complete. unfold sanitizePath.
  apply (strip_parents_bounded (String.length (Path.normalize pathname))).
  apply Nat.le_refl.
Qed.

(** ** Paths below the working directory *)

(** The segments of [./rest] and of [.//rest], as the watcher builds
    them from a path below the working directory. *)
Lemma dot_segments (rest : string) :
  no_climb rest = true ->
  segments (String "." (String "/" rest))
  = filter plain (Js.split Path.slash rest)
  /\ segments (String "." (String "/" (String "/" rest)))
     = filter plain (Js.split Path.slash rest).
Proof.
  intros Hn. unfold no_climb in Hn.
  assert (H : forall pre,
            fold_left (Path.norm_step true) (Js.split Path.slash rest) []
            = pre ->
            rev pre = filter plain (Js.split Path.slash rest)).
  { intros pre <-. rewrite (fold_harmless true _ [] Hn).
    rewrite app_nil_r. apply rev_involutive. }
  unfold segments, Path.normalizeSegments.
  change (Path.isAbsolute (String "." (String "/" rest))) with false.
  change (Path.isAbsolute (String "." (String "/" (String "/" rest))))
    with false.
  assert (Hs1 : Js.split Path.slash (String "." (String "/" rest))
                = "." :: Js.split Path.slash rest) by reflexivity.
  assert (Hs2 : Js.split Path.slash
                  (String "." (String "/" (String "/" rest)))
                = "." :: "" :: Js.split Path.slash rest) by reflexivity.
  rewrite Hs1, Hs2. split; apply H; reflexivity.
Qed.

Lemma startsWith_refl (a : string) : Js.startsWith a a = true.
Proof. rewrite <- (append_empty a) at 1. apply startsWith_app. Qed.

Lemma relative_empty (p : string) :
  p <> "" -> Path.isAbsolute p = false -> segments p = [] ->
  Path.normalize p = "./" \/ Path.normalize p = ".".
Proof.
  intros Hp Ha Hs. rewrite (normalize_shape p Hp), Hs, Ha.
  destruct (Js.is_char Path.slash (Js.last_char p));
    [left | right]; reflexivity.
Qed.

(** X8: for a path below the working directory that holds no [..], the
    watcher's ignore predicate looks only at the first segment that is
    neither empty nor [.], and only at how it starts: the path is ignored
    exactly when that segment starts with [bin] or with [node_modules]; a
    path without such a segment is not ignored. *)
Theorem ignore_looks_at_first_segment (cwd rest : string) :
  no_climb rest = true ->
  ignore cwd (cwd ++ "/" ++ rest)
  = match leading_segment rest with
    | Some x => Js.startsWith x "bin" || Js.startsWith x "node_modules"
    | None => false
    end.
Proof.
  intros Hn. unfold ignore, leading_segment.
  rewrite startsWith_app, substring_app.
  destruct (dot_segments rest Hn) as [_ Hseg].
  set (X := String "." (String "/" (String "/" rest))) in *.
  change (Path.join ["."; "/" ++ rest]) with (Path.normalize X).
  assert (HX : X <> "") by discriminate.
  destruct (filter plain (Js.split Path.slash rest)) as [|x N]; simpl.
  - destruct (relative_empty X HX eq_refl Hseg) as [-> | ->]; reflexivity.
  - destruct (segments_normalize X HX) as [Ha Hs].
    change (Path.isAbsolute X) with false in Ha.
    rewrite Hseg in Hs.
    destruct (relative_head (Path.normalize X) x N
                (normalize_not_empty X) Ha Hs) as [w [-> Hw]].
    rewrite !startsWith_head by (exact Hw || reflexivity).
    reflexivity.
Qed.

Lemma ignore_witness :
  ignore "/proj" "/proj/./bindings/native.ts" = true.
Proof.
  apply (ignore_looks_at_first_segment "/proj" "./bindings/native.ts").
  reflexivity.
Defined.

Lemma normalize_plain_segment (f : string) :
  plain f = true -> free f = true -> Path.normalize f = f.
Proof.
  intros Hp Hf.
  assert (Hne : f <> "") by (apply plain_not_empty; right; exact Hp).
  rewrite (normalize_shape f Hne).
  unfold segments, Path.normalizeSegments.
  rewrite (free_relative f Hf), (split_free f Hf), (free_no_trailing f Hf).
  simpl. rewrite (norm_step_plain true [] f Hp). reflexivity.
Qed.

(** Neither [./] nor [.] is, or starts with, a plain segment. *)
Lemma dot_not_matched (f : string) :
  plain f = true -> free f = true ->
  ("./" =? f) || Js.startsWith "./" f = false
  /\ ("." =? f) || Js.startsWith "." f = false.
Proof.
  intros Hp Hf.
  assert (H1 : ("./" =? f) = false)
    by (apply String.eqb_neq; intros <-; discriminate Hf).
  assert (H2 : ("." =? f) = false)
    by (apply String.eqb_neq; intros <-; discriminate Hp).
  assert (H3 : forall x, x = "./" \/ x = "." -> Js.startsWith x f = false).
  { intros x Hx. unfold Js.startsWith.
    destruct (String.prefix f x) eqn:Hpre; [|reflexivity].
    exfalso. destruct (prefix_exists _ _ Hpre) as [r Hr].
    destruct f as [|a [|b [|c f']]]; [discriminate Hp | | |].
    - destruct Hx as [-> | ->]; injection Hr as <- _; discriminate Hp.
    - destruct Hx as [-> | ->]; [|discriminate Hr].
      injection Hr as <- <- _. discriminate Hf.
    - destruct Hx as [-> | ->]; discriminate Hr. }
  rewrite H1, H2, (H3 "./" (or_introl eq_refl)),
          (H3 "." (or_intror eq_refl)).
  split; reflexivity.
Qed.

(** X9: for a changed or added path below the working directory that holds
    no [..], and copy rules whose sources are single segments, the handler
    takes the event for a copy path exactly when the first segment of the
    path that is neither empty nor [.] starts with the source of some rule,
    as a string: a rule for [static] also takes [static2/x].  A path
    without such a segment is no copy path. *)
Theorem copy_rules_match_by_prefix (E : env) (event rest : string) :
  event = "change" \/ event = "add" ->
  no_climb rest = true ->
  Forall (fun desc => plain (from desc) = true /\ free (from desc) = true)
         (copy (settings E)) ->
  is_copy_path E event (cPath E ++ "/" ++ rest)
  = match leading_segment rest with
    | Some x =>
        existsb (fun desc => Js.startsWith x (from desc)) (copy (settings E))
    | None => false
    end.
Proof.
  intros He Hn Hrules. unfold is_copy_path, leading_segment.
  assert (Hev : (event =? "change") || (event =? "add") = true)
    by (destruct He as [-> | ->]; reflexivity).
  rewrite Hev, startsWith_app, substring_app. simpl andb.
  destruct (dot_segments rest Hn) as [Hseg _].
  change ("." ++ "/" ++ rest) with (String "." (String "/" rest)).
  set (X := String "." (String "/" rest)) in *.
  assert (HX : X <> "") by discriminate.
  unfold copy_some.
  destruct (filter plain (Js.split Path.slash rest)) as [|x N]; simpl.
  - assert (Hpth : Path.normalize X = "./" \/ Path.normalize X = ".")
      by (apply relative_empty; [exact HX | reflexivity | exact Hseg]).
    induction Hrules as [|desc rules [Hp Hf] _ IH]; [reflexivity|].
    simpl. rewrite IH, (normalize_plain_segment _ Hp Hf).
    destruct (dot_not_matched (from desc) Hp Hf) as [H1 H2].
    destruct Hpth as [-> | ->]; [rewrite H1 | rewrite H2]; reflexivity.
  - destruct (relative_head X x N HX eq_refl Hseg) as [w [-> Hw]].
    induction Hrules as [|desc rules [Hp Hf] _ IH]; [reflexivity|].
    simpl. rewrite IH. f_equal.
    rewrite (normalize_plain_segment _ Hp Hf).
    rewrite (startsWith_head _ _ _ Hf Hw).
    destruct (String.eqb_spec (x ++ w) (from desc)) as [Heq | _];
      [|reflexivity].
    simpl. rewrite <- (startsWith_head _ _ w Hf Hw), Heq.
    symmetry. apply startsWith_refl.
Qed.

Lemma copy_rules_witness :
  is_copy_path tools_project "add" "/proj/toolshed/readme.md" = true.
Proof.
  apply (copy_rules_match_by_prefix tools_project "add" "toolshed/readme.md").
  - right. reflexivity.
  - reflexivity.
  - repeat constructor.
Defined.

(** ** After the bundler *)



(** ** The command line *)

Lemma find_first {A : Type} (f : A -> bool) (pre post : list A) (x : A) :
  Forall (fun a => f a = false) pre -> f x = true ->
  find f (pre ++ x :: post) = Some x.
Proof.
  intros Hpre Hx. induction Hpre as [|a pre Ha _ IH]; simpl.
  - rewrite Hx. reflexivity.
  - rewrite Ha. exact IH.
Qed.

(** X11: the first argument that starts with [--outdir=] decides the output
    directory, whatever comes after it: its value, taken as it is, replaces
    the directory of [package.json] and the default; an empty value leaves
    them in place, even when a later [--outdir=] names a directory.  The
    entry points and the copy rules do not depend on the command line. *)
Theorem first_outdir_argument_decides (pkg : pkg_x4build)
        (pre post : list string) (d : string) :
  Forall (fun a => Js.startsWith a "--outdir=" = false) pre ->
  let st := resolve_settings pkg (pre ++ ("--outdir=" ++ d) :: post) in
  outdir st = (if d =? "" then outdir (merge_settings pkg) else d)
  /\ entryPoints st = entryPoints (merge_settings pkg)
  /\ copy st = copy (merge_settings pkg).
Proof.
  intros Hpre st. unfold st, resolve_settings, outDir_arg.
  rewrite (find_first _ pre post ("--outdir=" ++ d) Hpre
             (startsWith_app "--outdir=" d)).
  cbn [option_map].
  change 9 with (String.length "--outdir=").
  rewrite substring_app.
  destruct (d =? ""); repeat split.
Qed.

Lemma first_outdir_witness :
  let st := resolve_settings
              {| pkg_entryPoints := None; pkg_outdir := Some "dist";
                 pkg_copy := None |}
              (["node"; "x4build.mjs"] ++ ("--outdir=" ++ "")
                 :: ["--outdir=out"]) in
  outdir st = "dist"
  /\ entryPoints st = ["src/main.ts"]
  /\ copy st = [].
Proof.
  apply (first_outdir_argument_decides
           {| pkg_entryPoints := None; pkg_outdir := Some "dist";
              pkg_copy := None |}
           ["node"; "x4build.mjs"] ["--outdir=out"] "").
  repeat constructor.
Defined.

Lemma create_server_of_flag (a : string) :
  Js.startsWith a "--http" = true ->
  create_server (Some (Js.substring 2 a))
  = if a =? "--https" then Some Https
    else if a =? "--http" then Some Http else None.
Proof.
  intros Hp. destruct (prefix_exists _ _ Hp) as [r ->].
  unfold create_server. cbn. reflexivity.
Qed.

(** X12: [watch()] and [serve()] get a server exactly when the first
    argument that starts with [--http] is [--http] or [--https] itself.
    With no such argument, or with one like [--http2] in front, the server
    variable stays undefined. *)
Theorem server_needs_an_exact_http_flag (argv : list string) :
  let first := find (fun a => Js.startsWith a "--http") argv in
  (create_server (httpMode_arg argv) = Some Http <-> first = Some "--http")
  /\ (create_server (httpMode_arg argv) = Some Https
      <-> first = Some "--https")
  /\ (create_server (httpMode_arg argv) = None
      <-> first <> Some "--http" /\ first <> Some "--https").
Proof.
  intros first. unfold httpMode_arg. fold first.
  destruct first as [a|] eqn:Hf.
  - apply find_some in Hf. destruct Hf as [_ Hp].
    cbn [option_map]. rewrite (create_server_of_flag a Hp).
    destruct (String.eqb_spec a "--https") as [-> | Hs].
    + split; [split; discriminate|].
      split; [split; reflexivity|].
      split; [discriminate|]. intros [_ Hn]. contradiction Hn. reflexivity.
    + destruct (String.eqb_spec a "--http") as [-> | Hh].
      * split; [split; reflexivity|].
        split; [split; discriminate|].
        split; [discriminate|]. intros [Hn _]. contradiction Hn. reflexivity.
      * split; [split; [discriminate | intros He; injection He as ->;
                                       contradiction Hh; reflexivity]|].
        split; [split; [discriminate | intros He; injection He as ->;
                                       contradiction Hs; reflexivity]|].
        split; [|reflexivity]. intros _.
        split; intros He; injection He as ->;
          [contradiction Hh | contradiction Hs]; reflexivity.
  - cbn. split; [split; discriminate|]. split; [split; discriminate|].
    split; [|reflexivity]. intros _. split; discriminate.
Qed.

(** *** [--ip] *)

Lemma take_digits_stop (max : nat) (a rest : string) :
  digits a = true -> String.length a <= max ->
  match rest with
  | EmptyString => True
  | String c _ => is_digit c = false
  end ->
  take_digits max (a ++ rest) = (a, rest).
Proof.
  revert max. induction a as [|x a IH]; intros max Hd Hlen Hrest.
  - simpl. destruct max; [destruct rest; reflexivity|].
    destruct rest as [|c r]; [reflexivity|]. simpl. rewrite Hrest.
    reflexivity.
  - destruct max as [|max]; [simpl in Hlen; lia|].
    unfold digits in Hd. simpl in Hd. apply andb_true_iff in Hd.
    destruct Hd as [Hx Ha]. simpl. rewrite Hx.
    rewrite (IH max Ha); [reflexivity | simpl in Hlen; lia | exact Hrest].
Qed.

Lemma octet_bounds (a : string) :
  octet a = true ->
  digits a = true /\ String.length a <= 3 /\ a <> "".
Proof.
  unfold octet. intros H.
  apply andb_true_iff in H. destruct H as [H H3].
  apply andb_true_iff in H. destruct H as [Hd H1].
  apply Nat.leb_le in H1. apply Nat.leb_le in H3.
  repeat split; try assumption.
  intros ->. simpl in H1. lia.
Qed.

Lemma octet_dot_reads (a s : string) :
  octet a = true -> octet_dot (a ++ "." ++ s) = Some (a, s).
Proof.
  intros H. destruct (octet_bounds a H) as (Hd & Hlen & Hne).
  unfold octet_dot.
  rewrite (take_digits_stop 3 a ("." ++ s) Hd Hlen) by reflexivity.
  destruct a; [contradiction | reflexivity].
Qed.

Lemma take_digits_all (p : string) :
  digits p = true -> take_digits (String.length p) p = (p, "").
Proof.
  intros Hd. rewrite <- (append_empty p) at 2.
  apply take_digits_stop; [exact Hd | apply Nat.le_refl | exact I].
Qed.

Lemma check_ip_skips (pre rest : list string) (n : net) :
  Forall (fun arg => re_exec arg = None) pre ->
  check_ip (pre ++ rest) n = check_ip rest n.
Proof.
  intros H. induction H as [|arg pre Harg _ IH]; [reflexivity|].
  simpl. rewrite Harg. exact IH.
Qed.

Lemma ip_at_reads (a b c d tail : string) :
  octet a = true -> octet b = true -> octet c = true -> octet d = true ->
  match tail with
  | EmptyString => True
  | String x _ => is_digit x = false
  end ->
  re_exec ("--ip=" ++ a ++ "." ++ b ++ "." ++ c ++ "." ++ d ++ tail)
  = Some (a ++ "." ++ b ++ "." ++ c ++ "." ++ d, port_group tail).
Proof.
  intros Ha Hb Hc Hd Htail.
  assert (H : ip_at ("--ip=" ++ a ++ "." ++ b ++ "." ++ c ++ "." ++ d
                     ++ tail)
              = Some (a ++ "." ++ b ++ "." ++ c ++ "." ++ d,
                      port_group tail)).
  { unfold ip_at.
    change (drop_prefix "--ip="
              ("--ip=" ++ a ++ "." ++ b ++ "." ++ c ++ "." ++ d ++ tail))
      with (Some (a ++ "." ++ b ++ "." ++ c ++ "." ++ d ++ tail)).
    cbv iota beta. rewrite (octet_dot_reads a _ Ha).
    cbv iota beta. rewrite (octet_dot_reads b _ Hb).
    cbv iota beta. rewrite (octet_dot_reads c _ Hc).
    cbv iota beta.
    destruct (octet_bounds d Hd) as (Hdd & Hlen & Hne).
    rewrite (take_digits_stop 3 d tail Hdd Hlen Htail).
    destruct d; [contradiction | reflexivity]. }
  change (re_exec
            ("--ip=" ++ a ++ "." ++ b ++ "." ++ c ++ "." ++ d ++ tail))
    with (match ip_at ("--ip=" ++ a ++ "." ++ b ++ "." ++ c ++ "." ++ d
                       ++ tail) with
          | Some m => Some m
          | None => re_exec ("-ip=" ++ a ++ "." ++ b ++ "." ++ c ++ "."
                             ++ d ++ tail)
          end).
  rewrite H. reflexivity.
Qed.

(** X13: the first argument that holds an address decides both globals.
    When it is [--ip=a.b.c.d], with octets of one to three digits and no
    port, the address is taken and the port becomes [NaN]: the default 3000
    is lost.  When [:p] follows, the port is the number that the digits [p]
    spell. *)
Theorem check_ip_reads_first_match (pre post : list string)
        (a b c d : string) (n : net) :
  Forall (fun arg => re_exec arg = None) pre ->
  octet a = true -> octet b = true -> octet c = true -> octet d = true ->
  check_ip
    (pre ++ ("--ip=" ++ a ++ "." ++ b ++ "." ++ c ++ "." ++ d) :: post) n
  = ({| IP := a ++ "." ++ b ++ "." ++ c ++ "." ++ d; PORT := NaN |}, true)
  /\ forall p,
       digits p = true -> p <> "" -> (decimal 0 p <= 2 ^ 53)%Z ->
       check_ip
         (pre ++ ("--ip=" ++ a ++ "." ++ b ++ "." ++ c ++ "." ++ d
                  ++ ":" ++ p) :: post) n
       = ({| IP := a ++ "." ++ b ++ "." ++ c ++ "." ++ d;
             PORT := Num (decimal 0 p) |}, true).
Proof.
  intros Hpre Ha Hb Hc Hd. split.
  - rewrite (check_ip_skips pre _ n Hpre). cbn [check_ip].
    pose proof (ip_at_reads a b c d "" Ha Hb Hc Hd I) as H.
    rewrite (append_empty d) in H. rewrite H. reflexivity.
  - intros p Hp Hne Hle.
    rewrite (check_ip_skips pre _ n Hpre). cbn [check_ip].
    rewrite (ip_at_reads a b c d (":" ++ p) Ha Hb Hc Hd eq_refl).
    unfold port_group. cbn [append Ascii.eqb Bool.eqb].
    rewrite (take_digits_all p Hp).
    destruct p as [|x p]; [contradiction|].
    unfold parseInt. apply Z.leb_le in Hle. rewrite Hle. reflexivity.
Qed.

Lemma check_ip_witness :
  check_ip (["node"; "x4build.mjs"; "--watch"]
              ++ ("--ip=" ++ "192" ++ "." ++ "168" ++ "." ++ "0" ++ "." ++ "7")
              :: ["--serve"]) default_net
  = ({| IP := "192" ++ "." ++ "168" ++ "." ++ "0" ++ "." ++ "7";
        PORT := NaN |}, true)
  /\ forall p,
       digits p = true -> p <> "" -> (decimal 0 p <= 2 ^ 53)%Z ->
       check_ip (["node"; "x4build.mjs"; "--watch"]
                   ++ ("--ip=" ++ "192" ++ "." ++ "168" ++ "." ++ "0" ++ "."
                       ++ "7" ++ ":" ++ p) :: ["--serve"]) default_net
       = ({| IP := "192" ++ "." ++ "168" ++ "." ++ "0" ++ "." ++ "7";
             PORT := Num (decimal 0 p) |}, true).
Proof.
  apply (check_ip_reads_first_match ["node"; "x4build.mjs"; "--watch"]
           ["--serve"] "192" "168" "0" "7" default_net);
    try reflexivity.
  repeat constructor.
Defined.

(** ** The live-reload client *)

Lemma after_line_stamp (d : Decimal.uint) (x : string) :
  after_line (uint_digits d ++ x) = after_line x.
Proof. induction d; simpl; try exact IHd; reflexivity. Qed.

Lemma after_line_idem (r : string) : after_line (after_line r) = after_line r.
Proof.
  induction r as [|c r IH]; [reflexivity|]. simpl.
  destruct (is_line_terminator c) eqn:Hc; [|exact IH].
  simpl. rewrite Hc. reflexivity.
Qed.

(** X14: stamping a stylesheet link again replaces the stamp: after any
    number of [reload-css] messages a link carries the last stamp only, on
    the address it had before its first question mark. *)
Theorem restamping_replaces_the_stamp (href : string) (g1 g2 : N) :
  replace_query (replace_query href g1) g2 = replace_query href g2.
Proof.
  induction href as [|c r IH]; simpl.
  - unfold stamp. rewrite <- (append_empty (uint_digits (N.to_uint g1))).
    rewrite after_line_stamp. simpl. rewrite !append_empty. reflexivity.
  - destruct (Ascii.eqb c "?") eqn:Hc; simpl.
    + unfold stamp at 2. rewrite after_line_stamp, after_line_idem.
      reflexivity.
    + rewrite Hc, IH. reflexivity.
Qed.

(** The sends that follow a classified change when no [send] throws. *)
Lemma change_then_settle (E : env) (before later : list input)
      (targetPath msg : string) (ok : bool) :
  let s := run E initial before in
  let b := fresh s in
  let s2 := run E (step E s (Watch "change" targetPath)) later in
  alive s = true ->
  is_copy_path E "change" targetPath = false ->
  (targetPath =? selfPath E) = false ->
  (In (Path.extname targetPath) [".css"; ".scss"; ".svg"]
   /\ msg = "reload-css")
  \/ (In (Path.extname targetPath) [".html"; ".js"; ".jsx"; ".ts"; ".tsx"]
      /\ msg = "reload-js") ->
  (forall ok', ~ In (Settled b ok') later) ->
  alive s2 = true ->
  (forall ws, In ws (clients s2) -> ws_send E ws = true) ->
  trace (step E s2 (Settled b ok))
  = (trace s2 ++ BundlerEnd b ok ::
       map (fun ws => Send ws msg) (clients s2))%list.
Proof.
  intros s b s2 Ha Hc Hself Hext Hlater Ha2 Hall.
  assert (Hs1 : step E s (Watch "change" targetPath)
                = build (KBroadcast msg) s).
  { unfold step. rewrite Ha. apply on_all_classified; assumption. }
  assert (Hn : named_apart s)
    by (apply named_apart_run, named_apart_initial).
  assert (Hsus : suspended_on b s2 = Some (KBroadcast msg)).
  { apply suspended_on_run; [|exact Hlater].
    rewrite Hs1. apply suspended_on_build, Hn. }
  unfold step. rewrite Ha2.
  destruct (settle_resumes E b ok _ s2 Hsus) as [Ht _].
  rewrite Ht, (broadcast_all E msg _ Hall). reflexivity.
Qed.

(** X15: what a change on disk does in the browser, when no [send] throws.
    For a changed file that is not the running script and matches no copy
    rule, once the build has settled: after a style extension every
    registered socket has been sent a message on which the client
    re-stamps its stylesheet links and keeps the page; after a code or
    markup extension every registered socket has been sent one on which
    the client reloads the page. *)
Theorem change_reaches_the_page (E : env) (before later : list input)
        (targetPath : string) (ok : bool) (gen_id : N)
        (links : list string) :
  let s := run E initial before in
  let b := fresh s in
  let s2 := run E (step E s (Watch "change" targetPath)) later in
  let s3 := step E s2 (Settled b ok) in
  alive s = true ->
  is_copy_path E "change" targetPath = false ->
  (targetPath =? selfPath E) = false ->
  (forall ok', ~ In (Settled b ok') later) ->
  alive s2 = true ->
  (forall ws, In ws (clients s2) -> ws_send E ws = true) ->
  (In (Path.extname targetPath) [".css"; ".scss"; ".svg"] ->
   exists msg,
     trace s3
     = (trace s2 ++ BundlerEnd b ok ::
          map (fun ws => Send ws msg) (clients s2))%list
     /\ onmessage msg gen_id links
        = Restyle (map (fun href => replace_query href gen_id) links))
  /\ (In (Path.extname targetPath) [".html"; ".js"; ".jsx"; ".ts"; ".tsx"] ->
      exists msg,
        trace s3
        = (trace s2 ++ BundlerEnd b ok ::
             map (fun ws => Send ws msg) (clients s2))%list
        /\ onmessage msg gen_id links = ReloadPage).
Proof.
  intros s b s2 s3 Ha Hc Hself Hlater Ha2 Hall. split; intros Hext.
  - exists "reload-css". split; [|reflexivity].
    apply (change_then_settle E before later targetPath "reload-css" ok);
      try assumption.
    left. split; [exact Hext | reflexivity].
  - exists "reload-js". split; [|reflexivity].
    apply (change_then_settle E before later targetPath "reload-js" ok);
      try assumption.
    right. split; [exact Hext | reflexivity].
Qed.

Lemma change_reaches_the_page_witness :
  exists msg,
    trace (run project initial
             [Connection 1; Watch "change" "/proj/theme/dark.scss";
              Connection 2; Settled 0 false])
    = ([BundlerStart 0] ++ BundlerEnd 0 false ::
         map (fun ws => Send ws msg) [1; 2])%list
    /\ onmessage msg 1700000000000 ["/app.css?1699999999999"]
       = Restyle ["/app.css?1700000000000"].
Proof.
  apply (proj1 (change_reaches_the_page project [Connection 1]
                  [Connection 2] "/proj/theme/dark.scss" false
                  1700000000000 ["/app.css?1699999999999"]
                  eq_refl eq_refl eq_refl
                  (fun ok' H => match H with
                                | or_introl Heq =>
                                    eq_ind (Connection 2)
                                      (fun i => match i with
                                                | Connection _ => True
                                                | _ => False
                                                end) I _ Heq
                                | or_intror F => F
                                end)
                  eq_refl (fun _ _ => eq_refl))).
  right. left. reflexivity.
Defined.

(** ** Failed builds *)

(** X16: whether a build fails or succeeds makes no difference to what
    follows it: the same caller resumes, the same messages go to the same
    sockets, and the process is left in the same state but for the outcome
    noted in the trace. *)
Theorem a_failed_build_is_followed_like_a_good_one (E : env) (s : state)
        (b : nat) :
  let good := step E s (Settled b true) in
  let bad := step E s (Settled b false) in
  filter is_send (trace bad) = filter is_send (trace good)
  /\ running bad = running good
  /\ clients bad = clients good
  /\ buildcnt bad = buildcnt good
  /\ alive bad = alive good.
Proof.
  unfold step. destruct (alive s); [|repeat split].
  unfold settle.
  destruct (find (named b) (running s)) as [[b' k]|]; [|repeat split].
  destruct k as [|msg]; simpl; rewrite !filter_app; repeat split.
Qed.

(** ** The answers of the static file server *)













